(** * ChipTemperature: on-chip temperature sensor of the ATmega32U4

    A shallow embedding of [src/ChipTemperature.h] and
    [src/ChipTemperature.cpp], and the properties of the averaging,
    calibration and unit-conversion code.

    The header refuses to compile for anything but [__AVR_ATmega32U4__], so
    the integer types are those of avr-gcc: [int] is 16 bits, [long] is 32
    bits, both two's complement; [uint16_t] and [uint8_t] are as named.
    Every machine integer is a [Z] and every operation writes its
    wrap-around out. A division whose divisor is zero has no defined
    result and is kept apart from every value. *)

From stdpp Require Import base option list numbers.

Local Open Scope Z_scope.

(** ** Machine integers *)

Module Machine.

(** Reduction to an unsigned type of [w] bits. *)
Definition wrap_unsigned (w z : Z) : Z := z mod 2 ^ w.

(** Reduction to a two's complement type of [w] bits. *)
Definition wrap_signed (w z : Z) : Z :=
  (z + 2 ^ (w - 1)) mod 2 ^ w - 2 ^ (w - 1).

Definition to_uint8 : Z → Z := wrap_unsigned 8.
Definition to_uint16 : Z → Z := wrap_unsigned 16.
Definition to_int : Z → Z := wrap_signed 16.
Definition to_long : Z → Z := wrap_signed 32.

Definition uint16 (z : Z) : Prop := 0 ≤ z < 65536.
Definition int_range (z : Z) : Prop := -32768 ≤ z < 32768.
Definition long_range (z : Z) : Prop := -2147483648 ≤ z < 2147483648.

(** [int] arithmetic. *)
Definition int_add (a b : Z) : Z := to_int (a + b).
Definition int_sub (a b : Z) : Z := to_int (a - b).
Definition int_mul (a b : Z) : Z := to_int (a * b).
(** C++ division truncates toward zero: [Z.quot]. The divisors of the
    [int] divisions of this program are non-zero literals. *)
Definition int_div (a b : Z) : Z := to_int (a `quot` b).

(** [long] arithmetic. *)
Definition long_add (a b : Z) : Z := to_long (a + b).
Definition long_sub (a b : Z) : Z := to_long (a - b).
Definition long_mul (a b : Z) : Z := to_long (a * b).
Definition long_div (a b : Z) : option Z :=
  if decide (b = 0) then None else Some (to_long (a `quot` b)).

End Machine.

Import Machine.

(** ** Constants of the header *)

Definition CHIPTEMP_CELSIUS_ZERO : Z := 273.
Definition CHIPTEMP_FAHRENHEIT_0_C : Z := 32.
Definition CHIPTEMP_FAHRENHEIT_NUM : Z := 5.
Definition CHIPTEMP_FAHRENHEIT_DENOM : Z := 9.
Definition CHIPTEMP_SAMPLES_FOR_AVG : nat := 5.

(** ** Calibration points *)

(** [struct ChipTempCalPointK]: two [const uint16_t] fields. *)
Record ChipTempCalPointK : Type := CalPoint {
  _tempK : Z;
  _hwReading : Z
}.

(** The constructor takes [uint16_t] parameters: whatever is passed is
    converted to that type. *)
Definition mkChipTempCalPointK (tempK hwReading : Z) : ChipTempCalPointK :=
  {| _tempK := to_uint16 tempK; _hwReading := to_uint16 hwReading |}.

(** [ChipTempCalPointC(int tempC, uint16_t hwReading)]. *)
Definition mkChipTempCalPointC (tempC hwReading : Z) : ChipTempCalPointK :=
  mkChipTempCalPointK (to_uint16 (int_add tempC CHIPTEMP_CELSIUS_ZERO)) hwReading.

(** [ChipTempCalPointF(int tempF, uint16_t hwReading)]. *)
Definition mkChipTempCalPointF (tempF hwReading : Z) : ChipTempCalPointK :=
  mkChipTempCalPointK
    (to_uint16
       (int_add
          (int_div
             (int_mul (int_sub tempF CHIPTEMP_FAHRENHEIT_0_C)
                      CHIPTEMP_FAHRENHEIT_NUM)
             CHIPTEMP_FAHRENHEIT_DENOM)
          CHIPTEMP_CELSIUS_ZERO))
    hwReading.

(** Both fields of a point hold values of their type, [uint16_t]. *)
Definition wf_point (p : ChipTempCalPointK) : Prop :=
  uint16 (_tempK p) ∧ uint16 (_hwReading p).

(** ** Temperature unit conversion functions *)

(** [int kelvinToCelsius(uint16_t kelvin)]: [(int)kelvin - 273]. *)
Definition kelvinToCelsius (kelvin : Z) : Z :=
  int_sub (to_int kelvin) CHIPTEMP_CELSIUS_ZERO.

(** [uint16_t celsiusToKelvin(int celsius)]: [(uint16_t)(celsius + 273)]. *)
Definition celsiusToKelvin (celsius : Z) : Z :=
  to_uint16 (int_add celsius CHIPTEMP_CELSIUS_ZERO).

(** [int celsiusToFahrenheit(int celsius)]:
    [(celsius * NUM) / DENOM + FAHRENHEIT_0_C]. *)
Definition celsiusToFahrenheit (celsius : Z) : Z :=
  int_add
    (int_div (int_mul celsius CHIPTEMP_FAHRENHEIT_NUM)
             CHIPTEMP_FAHRENHEIT_DENOM)
    CHIPTEMP_FAHRENHEIT_0_C.

(** The formula the scale has: [c * 9 / 5 + 32], truncating. *)
Definition spec_celsiusToFahrenheit (celsius : Z) : Z :=
  (celsius * 9) `quot` 5 + 32.

(** ** The tracker *)

(** [class ChipTemperature]. The header declares the two calibration points
    and the array [_samples]; [tickCount] is the number of [loop] calls so
    far, the counter by which the specification places each write. *)
Record ChipTemperature : Type := Tracker {
  _calPoint1 : ChipTempCalPointK;
  _calPoint2 : ChipTempCalPointK;
  _samples : list Z;
  tickCount : nat
}.

(** Modelled from the spec: the body of [_resetObject] is not in the header
    (only its declaration, "Initializes all state fields to their initial
    values"). Section 3: "Initial state: all slots zero". *)
Definition _resetObject (t : ChipTemperature) : ChipTemperature :=
  {| _calPoint1 := _calPoint1 t;
     _calPoint2 := _calPoint2 t;
     _samples := replicate CHIPTEMP_SAMPLES_FOR_AVG 0;
     tickCount := 0 |}.

(** Modelled from the spec: the body of the two-point constructor is not in
    the header. Section 3: the two points are "set at construction; never
    mutated" and "must have distinct hardwareReading values"; section 4.2:
    equal readings are "a construction-time configuration error" that "must
    be rejected at construction, not deferred to first read"; section 6:
    "points accepted in any order"; sections 7 and 8: construction with two
    points "sharing the same hardware reading is rejected
    deterministically". [None] is the rejected construction; otherwise the
    points are stored in the order supplied and the state is reset. *)
Definition ChipTemperature_calibrated
    (calPoint1 calPoint2 : ChipTempCalPointK) : option ChipTemperature :=
  if _hwReading calPoint1 =? _hwReading calPoint2 then None
  else Some (_resetObject {| _calPoint1 := calPoint1;
                             _calPoint2 := calPoint2;
                             _samples := [];
                             tickCount := 0 |}).

(** Modelled from the spec: the body of the no-argument constructor is not
    in the header. Section 3: "If omitted, the tracker degenerates to
    identity calibration (raw value reported unchanged)". The identity map
    is the line through (0, 0) and (1, 1). *)
Definition ChipTemperature_uncalibrated : ChipTemperature :=
  _resetObject {| _calPoint1 := mkChipTempCalPointK 0 0;
                  _calPoint2 := mkChipTempCalPointK 1 1;
                  _samples := [];
                  tickCount := 0 |}.

(** Modelled from the spec: the body of [loop] is not in the header.
    Section 4.2: "acquire one sample via RawSampler; insert into the ring
    buffer, overwriting the slot that is oldest (position = tickCount mod
    N)". The sample is what [_readHw] returned, a [uint16_t]. *)
Definition loop (reading : Z) (t : ChipTemperature) : ChipTemperature :=
  {| _calPoint1 := _calPoint1 t;
     _calPoint2 := _calPoint2 t;
     _samples :=
       <[(tickCount t mod CHIPTEMP_SAMPLES_FOR_AVG)%nat := to_uint16 reading]>
         (_samples t);
     tickCount := S (tickCount t) |}.

Definition sum_samples (l : list Z) : Z := foldr Z.add 0 l.

(** Modelled from the spec: the body of [getRaw] is not in the header.
    Section 4.2: "arithmetic mean (integer or fixed-point, truncating) of
    all N buffer slots, regardless of how many ticks have actually
    occurred". The return type is [uint16_t]. *)
Definition getRaw (t : ChipTemperature) : Z :=
  to_uint16 (sum_samples (_samples t) `quot` Z.of_nat CHIPTEMP_SAMPLES_FOR_AVG).

(** What a call of [getK] comes to: a value, or a division by zero. The
    latter is undefined behaviour and nothing reports it: the function has
    no error path and the AVR has no division trap, so the caller receives
    whatever the division routine leaves. *)
Inductive outcome : Type :=
  | Returns (v : Z)
  | DivisionByZero.

(** [uint16_t ChipTemperature::getK() const]:
<<
 return (uint16_t)(((((long)getRaw() - (long)_calPoint1._hwReading)
                         * ((long)_calPoint2._tempK - (long)_calPoint1._tempK))
                       / ((long)_calPoint2._hwReading - (long)_calPoint1._hwReading))
                     + (long)_calPoint1._tempK);
>>
    The line [!!! check for signs - getRaw() is the maximum, reverse order]
    that precedes the statement in the header is the author's reminder, not
    code. *)
Definition getK (t : ChipTemperature) : outcome :=
  let hw1 := to_long (_hwReading (_calPoint1 t)) in
  let hw2 := to_long (_hwReading (_calPoint2 t)) in
  let tempK1 := to_long (_tempK (_calPoint1 t)) in
  let tempK2 := to_long (_tempK (_calPoint2 t)) in
  match long_div
          (long_mul (long_sub (to_long (getRaw t)) hw1) (long_sub tempK2 tempK1))
          (long_sub hw2 hw1)
  with
  | Some q => Returns (to_uint16 (long_add q tempK1))
  | None => DivisionByZero
  end.

(** The host calls [loop] once per iteration; [run] is a sequence of such
    calls, one hardware reading each. *)
Definition run (readings : list Z) (t : ChipTemperature) : ChipTemperature :=
  foldl (λ t r, loop r t) t readings.

(** *** What the specification says of the calibrated value *)

(** The interpolated value is the rational [num / den]. *)
Definition interpolation_num (t : ChipTemperature) : Z :=
  (getRaw t - _hwReading (_calPoint1 t))
  * (_tempK (_calPoint2 t) - _tempK (_calPoint1 t))
  + _tempK (_calPoint1 t) * (_hwReading (_calPoint2 t) - _hwReading (_calPoint1 t)).

Definition interpolation_den (t : ChipTemperature) : Z :=
  _hwReading (_calPoint2 t) - _hwReading (_calPoint1 t).

(** [r] is [round (num / den)]: an integer at distance at most one half,
    whichever way ties go. *)
Definition rounds_to (num den r : Z) : Prop :=
  2 * Z.abs (r * den - num) ≤ Z.abs den.

(** The tracker with the same state and the two points exchanged. *)
Definition swap_points (t : ChipTemperature) : ChipTemperature :=
  {| _calPoint1 := _calPoint2 t;
     _calPoint2 := _calPoint1 t;
     _samples := _samples t;
     tickCount := tickCount t |}.

(** The exact values of the operands and of the product in [getK], before
    any reduction to [long]. *)
Definition getK_operands (t : ChipTemperature) : list Z :=
  [ getRaw t;
    _hwReading (_calPoint1 t);
    _hwReading (_calPoint2 t);
    _tempK (_calPoint1 t);
    _tempK (_calPoint2 t);
    getRaw t - _hwReading (_calPoint1 t);
    _tempK (_calPoint2 t) - _tempK (_calPoint1 t);
    _hwReading (_calPoint2 t) - _hwReading (_calPoint1 t);
    (getRaw t - _hwReading (_calPoint1 t))
    * (_tempK (_calPoint2 t) - _tempK (_calPoint1 t)) ].

(** The exact quotient of [getK], truncated toward zero. *)
Definition getK_quotient (t : ChipTemperature) : Z :=
  ((getRaw t - _hwReading (_calPoint1 t))
   * (_tempK (_calPoint2 t) - _tempK (_calPoint1 t)))
  `quot` (_hwReading (_calPoint2 t) - _hwReading (_calPoint1 t)).

(** The value [getK] computes when nothing wraps: the truncated quotient,
    then the offset. *)
Definition interpolation_trunc (t : ChipTemperature) : Z :=
  getK_quotient t + _tempK (_calPoint1 t).

(** A tracker built from two points and then ticked with [readings]. *)
Definition tracker_after (calPoint1 calPoint2 : ChipTempCalPointK)
    (readings : list Z) : option ChipTemperature :=
  run readings <$> ChipTemperature_calibrated calPoint1 calPoint2.

(** The range of the sensor: ten bits. *)
Definition sensor_range (z : Z) : Prop := 0 ≤ z ≤ 1023.

(** The ring after [n] ticks: slot [(n + i) mod N] holds the [i]-th oldest
    entry of the window. *)
Definition ring (n : nat) (samples window : list Z) : Prop :=
  length samples = CHIPTEMP_SAMPLES_FOR_AVG ∧
  length window = CHIPTEMP_SAMPLES_FOR_AVG ∧
  ∀ i : nat, (i < CHIPTEMP_SAMPLES_FOR_AVG)%nat →
    samples !! ((n + i) mod CHIPTEMP_SAMPLES_FOR_AVG)%nat = window !! i.

(** Everything the buffer was ever given: the zeros of the reset, then the
    readings as stored. *)
Definition history (readings : list Z) : list Z :=
  replicate CHIPTEMP_SAMPLES_FOR_AVG 0 ++ (to_uint16 <$> readings).

(** The truncating mean of a list of [N] values, as [getRaw] returns it. *)
Definition truncated_mean (l : list Z) : Z :=
  to_uint16 (sum_samples l `quot` Z.of_nat CHIPTEMP_SAMPLES_FOR_AVG).

(** ** The analog-to-digital converter *)

(** [chipTemperatureReadRaw] touches the ADC through its registers. What the
    registers do is what the ATmega32U4 datasheet says, in the passages the
    source quotes; the bit positions are those of [avr/io.h]. The converter
    is enabled, as the Arduino core leaves it; the function does not touch
    [ADEN]. The interrupt flag [ADIF] of [ADCSRA] follows section 24.9.2 of
    the datasheet: set when a conversion completes, cleared by writing a
    one to it. *)
Module ADC.

Definition REFS1 : Z := 7.
Definition REFS0 : Z := 6.
Definition ADLAR : Z := 5.
Definition MUX5 : Z := 5.
Definition ADSC : Z := 6.
Definition ADIF : Z := 4.

Definition _BV (bit : Z) : Z := Z.shiftl 1 bit.

(** What an observer of the converter sees. *)
Inductive event : Type :=
  | ConversionStarted
  | ConversionComplete (result : Z)
  | ReadADCL (value : Z)
  | ReadADCH (value : Z)
  | DelayMicroseconds (us : Z).

(** The converter: its registers, the conversion in progress (polls left
    and the 10-bit result it will deliver), the results of the conversions
    to come with their durations, the latch that a read of [ADCL] sets and
    a read of [ADCH] releases, and the events so far. *)
Record state : Type := State {
  ADMUX : Z;
  ADCSRA : Z;
  ADCSRB : Z;
  ADCL : Z;
  ADCH : Z;
  converting : option (nat * Z);
  upcoming : list (nat * Z);
  latched : bool;
  trace : list event
}.

(** Register accesses form a state monad; [None] is a poll that ran out of
    fuel or a conversion the environment has no result for. *)
Definition HW (A : Type) : Type := state → option (A * state).

Definition ret {A} (a : A) : HW A := λ s, Some (a, s).

Definition bind {A B} (m : HW A) (f : A → HW B) : HW B :=
  λ s, match m s with
       | Some (a, s') => f a s'
       | None => None
       end.

Definition log (e : event) (s : state) : state :=
  {| ADMUX := ADMUX s; ADCSRA := ADCSRA s; ADCSRB := ADCSRB s;
     ADCL := ADCL s; ADCH := ADCH s; converting := converting s;
     upcoming := upcoming s; latched := latched s;
     trace := trace s ++ [e] |}.

(** The end of a conversion: [ADSC] returns to zero and the interrupt flag
    [ADIF] is set; the data register takes the result, right adjusted
    unless [ADLAR] is set, and keeps its old content while latched. *)
Definition complete (result : Z) (s : state) : state :=
  let low := if Z.testbit (ADMUX s) ADLAR
             then to_uint8 (Z.shiftl result 6)
             else to_uint8 result in
  let high := if Z.testbit (ADMUX s) ADLAR
              then to_uint8 (Z.shiftr result 2)
              else to_uint8 (Z.shiftr result 8) in
  log (ConversionComplete result)
    {| ADMUX := ADMUX s;
       ADCSRA := Z.setbit (Z.clearbit (ADCSRA s) ADSC) ADIF;
       ADCSRB := ADCSRB s;
       ADCL := if latched s then ADCL s else low;
       ADCH := if latched s then ADCH s else high;
       converting := None;
       upcoming := upcoming s;
       latched := latched s;
       trace := trace s |}.

(** Time passes by one poll. *)
Definition advance (s : state) : state :=
  match converting s with
  | None => s
  | Some (O, result) => complete result s
  | Some (S n, result) =>
      {| ADMUX := ADMUX s; ADCSRA := ADCSRA s; ADCSRB := ADCSRB s;
         ADCL := ADCL s; ADCH := ADCH s; converting := Some (n, result);
         upcoming := upcoming s; latched := latched s; trace := trace s |}
  end.

Definition write_ADMUX (v : Z) : HW unit := λ s,
  Some (tt, {| ADMUX := to_uint8 v; ADCSRA := ADCSRA s; ADCSRB := ADCSRB s;
               ADCL := ADCL s; ADCH := ADCH s; converting := converting s;
               upcoming := upcoming s; latched := latched s;
               trace := trace s |}).

Definition read_ADCSRB : HW Z := λ s, Some (ADCSRB s, s).

Definition write_ADCSRB (v : Z) : HW unit := λ s,
  Some (tt, {| ADMUX := ADMUX s; ADCSRA := ADCSRA s; ADCSRB := to_uint8 v;
               ADCL := ADCL s; ADCH := ADCH s; converting := converting s;
               upcoming := upcoming s; latched := latched s;
               trace := trace s |}).

(** A read of [ADCSRA] sees [ADSC] set as long as a conversion is in
    progress; the read takes time. *)
Definition read_ADCSRA : HW Z := λ s, Some (ADCSRA s, advance s).

(** A write of one to [ADSC] starts a conversion when none is running; a
    write of zero to it has no effect. A write of one to [ADIF] clears the
    flag; a write of zero leaves it as it is. *)
Definition write_ADCSRA (v : Z) : HW unit := λ s,
  let written :=
    if Z.testbit (ADCSRA s) ADIF && negb (Z.testbit v ADIF)
    then Z.setbit (to_uint8 v) ADIF
    else Z.clearbit (to_uint8 v) ADIF in
  let keep := if Z.testbit (ADCSRA s) ADSC
              then Z.setbit written ADSC
              else Z.clearbit written ADSC in
  match Z.testbit v ADSC, converting s, upcoming s with
  | true, None, next :: rest =>
      Some (tt, log ConversionStarted
                  {| ADMUX := ADMUX s; ADCSRA := Z.setbit written ADSC;
                     ADCSRB := ADCSRB s; ADCL := ADCL s; ADCH := ADCH s;
                     converting := Some next; upcoming := rest;
                     latched := latched s; trace := trace s |})
  | true, None, [] => None
  | _, _, _ =>
      Some (tt, {| ADMUX := ADMUX s; ADCSRA := keep; ADCSRB := ADCSRB s;
                   ADCL := ADCL s; ADCH := ADCH s;
                   converting := converting s; upcoming := upcoming s;
                   latched := latched s; trace := trace s |})
  end.

Definition read_ADCL : HW Z := λ s,
  Some (ADCL s,
        log (ReadADCL (ADCL s))
          {| ADMUX := ADMUX s; ADCSRA := ADCSRA s; ADCSRB := ADCSRB s;
             ADCL := ADCL s; ADCH := ADCH s; converting := converting s;
             upcoming := upcoming s; latched := true; trace := trace s |}).

Definition read_ADCH : HW Z := λ s,
  Some (ADCH s,
        log (ReadADCH (ADCH s))
          {| ADMUX := ADMUX s; ADCSRA := ADCSRA s; ADCSRB := ADCSRB s;
             ADCL := ADCL s; ADCH := ADCH s; converting := converting s;
             upcoming := upcoming s; latched := false; trace := trace s |}).

Definition delayMicroseconds (us : Z) : HW unit := λ s,
  Some (tt, log (DelayMicroseconds us) s).

(** [while (bit_is_set(ADCSRA, ADSC));] *)
Fixpoint poll_wait (fuel : nat) : HW unit :=
  match fuel with
  | O => λ _, None
  | S fuel' =>
      bind read_ADCSRA (λ v,
        if Z.testbit v ADSC then poll_wait fuel' else ret tt)
  end.

End ADC.

#[export] Instance hw_ret : MRet ADC.HW := @ADC.ret.
#[export] Instance hw_bind : MBind ADC.HW := λ A B f m, ADC.bind m f.

(** [int chipTemperatureReadRaw()]. The two locals are [volatile uint8_t];
    in [(high << 8) | low] they are promoted to [int]. *)
Definition chipTemperatureReadRaw (fuel : nat) : ADC.HW Z :=
  ADC.write_ADMUX (Z.lor (Z.lor (ADC._BV ADC.REFS1) (ADC._BV ADC.REFS0)) 7);;
  b ← ADC.read_ADCSRB;
  ADC.write_ADCSRB (Z.lor b (ADC._BV ADC.MUX5));;
  a ← ADC.read_ADCSRA;
  ADC.write_ADCSRA (Z.lor a (ADC._BV ADC.ADSC));;
  ADC.poll_wait fuel;;
  low ← ADC.read_ADCL;
  high ← ADC.read_ADCH;
  ADC.delayMicroseconds 2;;
  a ← ADC.read_ADCSRA;
  ADC.write_ADCSRA (Z.lor a (ADC._BV ADC.ADSC));;
  ADC.poll_wait fuel;;
  low ← ADC.read_ADCL;
  high ← ADC.read_ADCH;
  mret (Z.lor (to_int (Z.shiftl (to_uint8 high) 8)) (to_uint8 low)).

(** A converter at rest: no conversion in progress, [ADSC] clear, the data
    register not latched. *)
Definition adc_idle (s : ADC.state) : Prop :=
  ADC.converting s = None ∧ Z.testbit (ADC.ADCSRA s) ADC.ADSC = false ∧
  ADC.latched s = false.

(** [ADCSRA] after the read-modify-write that sets [ADSC] and the
    conversion it starts: the write puts back a one at [ADIF] if the flag
    was set, which clears it, and a zero if it was not; the end of the
    conversion clears [ADSC] and sets [ADIF]. *)
Definition adcsra_after_conversion (a : Z) : Z :=
  Z.setbit
    (Z.clearbit
       (Z.setbit
          (Z.clearbit (to_uint8 (Z.lor a (ADC._BV ADC.ADSC))) ADC.ADIF)
          ADC.ADSC)
       ADC.ADSC)
    ADC.ADIF.

(** The converter after a conversion started at rest has delivered [result]
    and both halves of the data register have been read, low byte first. *)
Definition after_conversion (result : Z) (rest : list (nat * Z))
    (s : ADC.state) : ADC.state :=
  {| ADC.ADMUX := ADC.ADMUX s;
     ADC.ADCSRA := adcsra_after_conversion (ADC.ADCSRA s);
     ADC.ADCSRB := ADC.ADCSRB s;
     ADC.ADCL := to_uint8 result;
     ADC.ADCH := to_uint8 (Z.shiftr result 8);
     ADC.converting := None;
     ADC.upcoming := rest;
     ADC.latched := false;
     ADC.trace :=
       ADC.trace s ++
       [ADC.ConversionStarted; ADC.ConversionComplete result;
        ADC.ReadADCL (to_uint8 result);
        ADC.ReadADCH (to_uint8 (Z.shiftr result 8))] |}.

(** [(high << 8) | low] on the two bytes of a result. *)
Definition assemble (high low : Z) : Z :=
  Z.lor (to_int (Z.shiftl (to_uint8 high) 8)) (to_uint8 low).

(** The converter once [ADMUX] and [ADCSRB] have been written: the
    temperature channel and the internal 2.56 V reference are selected. *)
Definition after_setup (s : ADC.state) : ADC.state :=
  {| ADC.ADMUX :=
       to_uint8 (Z.lor (Z.lor (ADC._BV ADC.REFS1) (ADC._BV ADC.REFS0)) 7);
     ADC.ADCSRA := ADC.ADCSRA s;
     ADC.ADCSRB := to_uint8 (Z.lor (ADC.ADCSRB s) (ADC._BV ADC.MUX5));
     ADC.ADCL := ADC.ADCL s;
     ADC.ADCH := ADC.ADCH s;
     ADC.converting := ADC.converting s;
     ADC.upcoming := ADC.upcoming s;
     ADC.latched := ADC.latched s;
     ADC.trace := ADC.trace s |}.

(** As [after_conversion], from a converter whose data register may be
    latched: the register then keeps its old content and the two reads
    return it; the read of [ADCH] releases the latch. *)
Definition after_conversion_from (result : Z) (rest : list (nat * Z))
    (s : ADC.state) : ADC.state :=
  {| ADC.ADMUX := ADC.ADMUX s;
     ADC.ADCSRA := adcsra_after_conversion (ADC.ADCSRA s);
     ADC.ADCSRB := ADC.ADCSRB s;
     ADC.ADCL := if ADC.latched s then ADC.ADCL s else to_uint8 result;
     ADC.ADCH :=
       if ADC.latched s then ADC.ADCH s else to_uint8 (Z.shiftr result 8);
     ADC.converting := None;
     ADC.upcoming := rest;
     ADC.latched := false;
     ADC.trace :=
       ADC.trace s ++
       [ADC.ConversionStarted; ADC.ConversionComplete result;
        ADC.ReadADCL (if ADC.latched s then ADC.ADCL s else to_uint8 result);
        ADC.ReadADCH
          (if ADC.latched s then ADC.ADCH s
           else to_uint8 (Z.shiftr result 8))] |}.

(** The converter after a whole call of [chipTemperatureReadRaw]. *)
Definition after_read (result1 : Z) (second : nat * Z) (rest : list (nat * Z))
    (s : ADC.state) : ADC.state :=
  after_conversion second.2 rest
    (ADC.log (ADC.DelayMicroseconds 2)
       (after_conversion_from result1 (second :: rest) (after_setup s))).

(** Two calls in a row, as two iterations of the host loop make them. *)
Definition chipTemperatureReadRaw_twice (fuel : nat) : ADC.HW (Z * Z) :=
  first ← chipTemperatureReadRaw fuel;
  second ← chipTemperatureReadRaw fuel;
  mret (first, second).

(** * Properties *)

(** ** Machine integers *)

Section MachineFacts.

Lemma to_uint16_id z : uint16 z → to_uint16 z = z.
Proof.
  unfold uint16, to_uint16, wrap_unsigned. intros. apply Z.mod_small. lia.
Qed.

Lemma to_uint16_range z : uint16 (to_uint16 z).
Proof.
  unfold uint16, to_uint16, wrap_unsigned.
  pose proof (Z.mod_pos_bound z (2 ^ 16)). lia.
Qed.

Lemma to_int_id z : int_range z → to_int z = z.
Proof.
  unfold int_range, to_int, wrap_signed. intros.
  change (2 ^ (16 - 1)) with 32768. change (2 ^ 16) with 65536.
  rewrite Z.mod_small; lia.
Qed.

Lemma to_int_range z : int_range (to_int z).
Proof.
  unfold int_range, to_int, wrap_signed.
  change (2 ^ (16 - 1)) with 32768. change (2 ^ 16) with 65536.
  pose proof (Z.mod_pos_bound (z + 32768) 65536). lia.
Qed.

Lemma to_long_id z : long_range z → to_long z = z.
Proof.
  unfold long_range, to_long, wrap_signed. intros.
  change (2 ^ (32 - 1)) with 2147483648. change (2 ^ 32) with 4294967296.
  rewrite Z.mod_small; lia.
Qed.

(** Two's complement reduction keeps the value modulo [2^16]. *)
Lemma to_int_mod z : to_int z mod 65536 = z mod 65536.
Proof.
  unfold to_int, wrap_signed.
  change (2 ^ (16 - 1)) with 32768. change (2 ^ 16) with 65536.
  rewrite (Z.mod_eq (z + 32768) 65536) by lia.
  replace (z + 32768 - 65536 * ((z + 32768) `div` 65536) - 32768)
    with (z + (- ((z + 32768) `div` 65536)) * 65536) by lia.
  apply Z.mod_add. lia.
Qed.

Lemma to_uint16_mod z : to_uint16 z mod 65536 = z mod 65536.
Proof.
  unfold to_uint16, wrap_unsigned. change (2 ^ 16) with 65536.
  apply Z.mod_mod. lia.
Qed.

Lemma uint16_long z : uint16 z → long_range z.
Proof. unfold uint16, long_range. lia. Qed.

(** Two [int] values that agree modulo [2^16] are equal. *)
Lemma int_range_mod_inj a b :
  int_range a → int_range b → a mod 65536 = b mod 65536 → a = b.
Proof.
  unfold int_range. intros Ha Hb Hab.
  rewrite (Z.div_mod a 65536), (Z.div_mod b 65536), Hab by lia.
  pose proof (Z.mod_pos_bound b 65536).
  pose proof (Z.div_mod a 65536). pose proof (Z.div_mod b 65536).
  assert (a `div` 65536 = b `div` 65536) by lia. lia.
Qed.

Lemma uint16_mod_inj a b :
  uint16 a → uint16 b → a mod 65536 = b mod 65536 → a = b.
Proof.
  unfold uint16. intros Ha Hb. rewrite !Z.mod_small by lia. done.
Qed.

End MachineFacts.

(** ** Unit conversions *)

Section Conversions.

Lemma celsiusToKelvin_mod c :
  celsiusToKelvin c mod 65536 = (c + 273) mod 65536.
Proof.
  unfold celsiusToKelvin, int_add, CHIPTEMP_CELSIUS_ZERO.
  by rewrite to_uint16_mod, to_int_mod.
Qed.

Lemma kelvinToCelsius_mod k :
  kelvinToCelsius k mod 65536 = (k - 273) mod 65536.
Proof.
  unfold kelvinToCelsius, int_sub, CHIPTEMP_CELSIUS_ZERO.
  rewrite to_int_mod, <- Zminus_mod_idemp_l, to_int_mod.
  by rewrite Zminus_mod_idemp_l.
Qed.

(** C10: the two conversions between Kelvin and Celsius are inverse to
    each other: for every [int] [c] with [0 <= c + 273 < 2^16],
    [kelvinToCelsius (celsiusToKelvin c) = c], and for every [uint16_t]
    [k], [celsiusToKelvin (kelvinToCelsius k) = k]. *)
Theorem kelvin_celsius_inverse (c k : Z) :
  int_range c → 0 ≤ c + 273 < 2 ^ 16 → uint16 k →
  kelvinToCelsius (celsiusToKelvin c) = c ∧
  celsiusToKelvin (kelvinToCelsius k) = k.
Proof.
  intros Hc _ Hk. split.
  - apply int_range_mod_inj; [apply to_int_range | done |].
    rewrite kelvinToCelsius_mod, <- Zminus_mod_idemp_l, celsiusToKelvin_mod.
    rewrite Zminus_mod_idemp_l. f_equal. lia.
  - apply uint16_mod_inj; [apply to_uint16_range | done |].
    rewrite celsiusToKelvin_mod, <- Zplus_mod_idemp_l, kelvinToCelsius_mod.
    rewrite Zplus_mod_idemp_l. f_equal. lia.
Qed.

Lemma kelvin_celsius_inverse_witness :
  (int_range 32767 ∧ 0 ≤ 32767 + 273 < 2 ^ 16 ∧ uint16 40000) ∧
  kelvinToCelsius (celsiusToKelvin 32767) = 32767 ∧
  celsiusToKelvin (kelvinToCelsius 40000) = 40000.
Proof.
  split.
  - unfold int_range, uint16. lia.
  - apply (kelvin_celsius_inverse 32767 40000); unfold int_range, uint16; lia.
Defined.

(** Where the [int] intermediates do not wrap, [celsiusToFahrenheit]
    is [c * 5 / 9 + 32]. *)
Lemma celsiusToFahrenheit_small c :
  -6000 ≤ c ≤ 6000 → celsiusToFahrenheit c = (c * 5) `quot` 9 + 32.
Proof.
  intros Hc.
  unfold celsiusToFahrenheit, int_add, int_div, int_mul,
    CHIPTEMP_FAHRENHEIT_NUM, CHIPTEMP_FAHRENHEIT_DENOM, CHIPTEMP_FAHRENHEIT_0_C.
  rewrite (to_int_id (c * 5)) by (unfold int_range; lia).
  assert (-30000 ≤ (c * 5) `quot` 9 ≤ 30000).
  { pose proof (Z.quot_rem' (c * 5) 9).
    pose proof (Z.rem_bound_abs (c * 5) 9). lia. }
  rewrite (to_int_id ((c * 5) `quot` 9)) by (unfold int_range; lia).
  apply to_int_id. unfold int_range. lia.
Qed.

(** C7: [celsiusToFahrenheit] is to return [c * 9 / 5 + 32], the inverse
    of the transform of the Fahrenheit calibration point. At 100 degrees
    Celsius the code returns 87 where the formula gives 212, although the
    Fahrenheit calibration point takes 212 to 373 K, which
    [kelvinToCelsius] takes to 100. *)
Theorem celsiusToFahrenheit_100 :
  celsiusToFahrenheit 100 = 87 ∧
  spec_celsiusToFahrenheit 100 = 212 ∧
  celsiusToFahrenheit 100 ≠ spec_celsiusToFahrenheit 100 ∧
  celsiusToFahrenheit 100 = (100 * 5) `quot` 9 + 32 ∧
  celsiusToFahrenheit 0 = 32 ∧
  kelvinToCelsius (_tempK (mkChipTempCalPointF 212 0)) = 100.
Proof. repeat split; vm_compute; congruence. Qed.

End Conversions.

(** ** Calibration *)

Section Calibration.

Implicit Types (t : ChipTemperature) (p : ChipTempCalPointK).

Lemma getRaw_uint16 t : uint16 (getRaw t).
Proof. apply to_uint16_range. Qed.

(** A truncated quotient is no larger than its dividend. *)
Lemma quot_abs_le a b : b ≠ 0 → Z.abs (a `quot` b) ≤ Z.abs a.
Proof.
  intros Hb. rewrite <- Z.quot_abs by done.
  rewrite Z.quot_div_nonneg by lia.
  apply Z.div_le_upper_bound; [lia|]. nia.
Qed.

Lemma run_snoc readings r t : run (readings ++ [r]) t = loop r (run readings t).
Proof. unfold run. by rewrite foldl_app. Qed.

Lemma run_calPoints readings t :
  _calPoint1 (run readings t) = _calPoint1 t ∧
  _calPoint2 (run readings t) = _calPoint2 t.
Proof.
  induction readings as [|r readings IH] using rev_ind; [done|].
  rewrite run_snoc. simpl. done.
Qed.

(** When neither the product nor the sum leaves the range of [long],
    [getK] is the exact truncated interpolation, reduced to 16 bits. *)
Lemma getK_no_wrap t :
  wf_point (_calPoint1 t) → wf_point (_calPoint2 t) →
  _hwReading (_calPoint1 t) ≠ _hwReading (_calPoint2 t) →
  long_range ((getRaw t - _hwReading (_calPoint1 t))
              * (_tempK (_calPoint2 t) - _tempK (_calPoint1 t))) →
  long_range (interpolation_trunc t) →
  getK t = Returns (to_uint16 (interpolation_trunc t)).
Proof.
  intros [Ht1 Hh1] [Ht2 Hh2] Hne Hprod Hsum.
  pose proof (getRaw_uint16 t) as Hraw.
  unfold getK, long_div, long_mul, long_sub, long_add.
  rewrite !(to_long_id (getRaw t)), !(to_long_id (_hwReading _)),
    !(to_long_id (_tempK _)) by by apply uint16_long.
  unfold uint16 in *.
  rewrite (to_long_id (getRaw t - _)) by (unfold long_range; lia).
  rewrite (to_long_id (_tempK _ - _)) by (unfold long_range; lia).
  rewrite (to_long_id (_hwReading _ - _)) by (unfold long_range; lia).
  rewrite (to_long_id (_ * _)) by done.
  rewrite decide_False by lia.
  fold (getK_quotient t).
  assert (long_range (getK_quotient t)) as Hq.
  { pose proof (quot_abs_le
      ((getRaw t - _hwReading (_calPoint1 t))
       * (_tempK (_calPoint2 t) - _tempK (_calPoint1 t)))
      (_hwReading (_calPoint2 t) - _hwReading (_calPoint1 t))) as Hle.
    fold (getK_quotient t) in Hle.
    unfold interpolation_trunc, long_range in *. lia. }
  rewrite (to_long_id (getK_quotient t)) by done.
  fold (interpolation_trunc t).
  by rewrite (to_long_id (interpolation_trunc t)).
Qed.

(** With equal hardware readings the divisor is zero. *)
Lemma getK_equal_readings t :
  _hwReading (_calPoint1 t) = _hwReading (_calPoint2 t) →
  getK t = DivisionByZero.
Proof.
  intros Heq. unfold getK. rewrite Heq.
  set (hw2 := to_long (_hwReading (_calPoint2 t))).
  assert (long_sub hw2 hw2 = 0) as ->; [|done].
  unfold long_sub. by rewrite Z.sub_diag.
Qed.

(** The truncated quotient is within one unit of the exact one. *)
Lemma quotient_error t :
  _hwReading (_calPoint1 t) ≠ _hwReading (_calPoint2 t) →
  Z.abs (interpolation_trunc t * interpolation_den t - interpolation_num t)
  < Z.abs (interpolation_den t).
Proof.
  intros Hne. unfold interpolation_trunc, getK_quotient, interpolation_num,
    interpolation_den.
  set (x := getRaw t - _). set (s := _tempK _ - _). set (d := _hwReading _ - _).
  assert (d ≠ 0) as Hd by (subst d; lia).
  pose proof (Z.quot_rem' (x * s) d) as Hqr.
  pose proof (Z.rem_bound_abs (x * s) d Hd) as Hr.
  replace (((x * s) `quot` d + _tempK (_calPoint1 t)) * d
           - (x * s + _tempK (_calPoint1 t) * d))
    with (- Z.rem (x * s) d) by lia.
  by rewrite Z.abs_opp.
Qed.

(** Sensor-range readings keep every operand and the product in [long]. *)
Lemma sensor_range_no_wrap t :
  wf_point (_calPoint1 t) → wf_point (_calPoint2 t) →
  sensor_range (getRaw t) →
  sensor_range (_hwReading (_calPoint1 t)) →
  sensor_range (_hwReading (_calPoint2 t)) →
  -67042305 ≤ (getRaw t - _hwReading (_calPoint1 t))
              * (_tempK (_calPoint2 t) - _tempK (_calPoint1 t)) ≤ 67042305.
Proof.
  unfold wf_point, uint16, sensor_range.
  intros [Ht1 Hh1] [Ht2 Hh2] Hraw Hs1 Hs2. nia.
Qed.

Lemma sensor_range_quotient t :
  wf_point (_calPoint1 t) → wf_point (_calPoint2 t) →
  sensor_range (getRaw t) →
  sensor_range (_hwReading (_calPoint1 t)) →
  sensor_range (_hwReading (_calPoint2 t)) →
  _hwReading (_calPoint1 t) ≠ _hwReading (_calPoint2 t) →
  -67042305 ≤ getK_quotient t ≤ 67042305.
Proof.
  intros W1 W2 Hraw Hs1 Hs2 Hne.
  pose proof (sensor_range_no_wrap t W1 W2 Hraw Hs1 Hs2) as Hp.
  unfold getK_quotient.
  set (a := _ * _) in *. set (d := _hwReading _ - _).
  assert (d ≠ 0) as Hd by (subst d; lia).
  pose proof (quot_abs_le a d Hd). lia.
Qed.

End Calibration.

Section CalibrationClaims.

Implicit Types (t : ChipTemperature) (p : ChipTempCalPointK).

Lemma run_swap_points readings t :
  run readings (swap_points t) = swap_points (run readings t).
Proof.
  induction readings as [|r readings IH] using rev_ind; [done|].
  rewrite !run_snoc, IH. done.
Qed.

(** Building with the points exchanged gives the exchanged tracker. *)
Lemma tracker_after_swap p1 p2 readings t t' :
  tracker_after p1 p2 readings = Some t →
  tracker_after p2 p1 readings = Some t' →
  t' = swap_points t.
Proof.
  unfold tracker_after, ChipTemperature_calibrated.
  rewrite (Z.eqb_sym (_hwReading p2)).
  destruct (_hwReading p1 =? _hwReading p2); [discriminate|]. simpl.
  intros [= <-] [= <-]. by rewrite <- run_swap_points.
Qed.

Lemma tracker_after_calPoints p1 p2 readings t :
  tracker_after p1 p2 readings = Some t →
  _calPoint1 t = p1 ∧ _calPoint2 t = p2.
Proof.
  unfold tracker_after, ChipTemperature_calibrated.
  destruct (_hwReading p1 =? _hwReading p2); [discriminate|]. simpl.
  intros [= <-]. apply run_calPoints.
Qed.

(** The two orders of the points give truncated quotients one unit apart
    at most, and the same when the division is exact. *)
Lemma interpolation_trunc_swap t :
  _hwReading (_calPoint1 t) ≠ _hwReading (_calPoint2 t) →
  Z.abs (interpolation_trunc t - interpolation_trunc (swap_points t)) ≤ 1 ∧
  ((interpolation_den t
    | (getRaw t - _hwReading (_calPoint1 t))
      * (_tempK (_calPoint2 t) - _tempK (_calPoint1 t))) →
   interpolation_trunc (swap_points t) = interpolation_trunc t).
Proof.
  intros Hne.
  unfold interpolation_trunc, getK_quotient, interpolation_den. simpl.
  change (getRaw (swap_points t)) with (getRaw t).
  set (raw := getRaw t). set (h1 := _hwReading (_calPoint1 t)).
  set (h2 := _hwReading (_calPoint2 t)). set (k1 := _tempK (_calPoint1 t)).
  set (k2 := _tempK (_calPoint2 t)).
  assert (h2 - h1 ≠ 0) as Hd by (subst h1 h2; lia).
  replace ((raw - h2) * (k1 - k2)) with (- ((raw - h2) * (k2 - k1))) by lia.
  replace (h1 - h2) with (- (h2 - h1)) by lia.
  rewrite Z.quot_opp_opp by done.
  pose proof (Z.quot_rem' ((raw - h1) * (k2 - k1)) (h2 - h1)) as Hqr.
  pose proof (Z.rem_bound_abs ((raw - h1) * (k2 - k1)) (h2 - h1) Hd) as Hr.
  pose proof (Z.quot_rem' ((raw - h2) * (k2 - k1)) (h2 - h1)) as Hqr'.
  pose proof (Z.rem_bound_abs ((raw - h2) * (k2 - k1)) (h2 - h1) Hd) as Hr'.
  set (q := ((raw - h1) * (k2 - k1)) `quot` (h2 - h1)) in *.
  set (q' := ((raw - h2) * (k2 - k1)) `quot` (h2 - h1)) in *.
  set (r := ((raw - h1) * (k2 - k1)) `rem` (h2 - h1)) in *.
  set (r' := ((raw - h2) * (k2 - k1)) `rem` (h2 - h1)) in *.
  assert ((h2 - h1) * (q - (k2 - k1) - q') = r' - r) as Hdiff by lia.
  split.
  - assert (Z.abs (q - (k2 - k1) - q') ≤ 1) by nia. lia.
  - intros Hdiv.
    assert (r = 0) as Hr0.
    { subst r. by apply Z.rem_divide. }
    assert (r' = 0) as Hr0'.
    { subst r'. apply Z.rem_divide; [done|].
      replace ((raw - h2) * (k2 - k1))
        with ((raw - h1) * (k2 - k1) - (k2 - k1) * (h2 - h1)) by lia.
      apply Z.divide_sub_r; [done|]. by apply Z.divide_mul_r. }
    rewrite Hr0, Hr0' in Hdiff.
    assert (q - (k2 - k1) - q' = 0) by nia. lia.
Qed.

(** The counterexample to C1. With points (273, 300) and (274, 303) and a
    raw average of 302 the exact value is 273 + 2/3, which rounds to 274;
    [getK] returns 273. With points (273, 300) and (373, 400) and no tick
    yet the raw average is 0 and the exact value is the integer -27;
    [getK] returns 65509. *)
Lemma getK_does_not_round :
  ∃ t u,
    tracker_after (CalPoint 273 300) (CalPoint 274 303) (replicate 5 302)
    = Some t ∧
    _hwReading (_calPoint1 t) ≠ _hwReading (_calPoint2 t) ∧
    getRaw t = 302 ∧
    getK t = Returns 273 ∧
    ¬ rounds_to (interpolation_num t) (interpolation_den t) 273 ∧
    rounds_to (interpolation_num t) (interpolation_den t) 274 ∧
    tracker_after (CalPoint 273 300) (CalPoint 373 400) [] = Some u ∧
    _hwReading (_calPoint1 u) ≠ _hwReading (_calPoint2 u) ∧
    getRaw u = 0 ∧
    getK u = Returns 65509 ∧
    interpolation_num u = -27 * interpolation_den u ∧
    ¬ rounds_to (interpolation_num u) (interpolation_den u) 65509.
Proof.
  do 2 eexists. split; [reflexivity|].
  do 5 (split; [vm_compute; congruence|]).
  split; [reflexivity|].
  repeat split; vm_compute; congruence.
Qed.

(** C1, amended: for a tracker whose points have distinct hardware
    readings, as long as the product and the sum stay within the 32-bit
    [long], [getK] returns
    [(rawAverage - P1.hw) * (P2.ref - P1.ref) / (P2.hw - P1.hw) + P1.ref]
    with the quotient truncated toward zero, reduced to 16 bits; the
    value is less than one unit away from the exact one. *)
Theorem getK_truncated_interpolation t :
  wf_point (_calPoint1 t) → wf_point (_calPoint2 t) →
  _hwReading (_calPoint1 t) ≠ _hwReading (_calPoint2 t) →
  long_range ((getRaw t - _hwReading (_calPoint1 t))
              * (_tempK (_calPoint2 t) - _tempK (_calPoint1 t))) →
  long_range (interpolation_trunc t) →
  getK t = Returns (to_uint16 (interpolation_trunc t)) ∧
  Z.abs (interpolation_trunc t * interpolation_den t - interpolation_num t)
  < Z.abs (interpolation_den t).
Proof.
  intros W1 W2 Hne Hprod Hsum. split.
  - by apply getK_no_wrap.
  - by apply quotient_error.
Qed.

(** The example of the specification: points (273, 300) and (373, 400), a
    raw average of 350, calibrated value 323. *)
Lemma getK_truncated_interpolation_witness :
  getRaw (Tracker (CalPoint 273 300) (CalPoint 373 400)
                  [350; 350; 350; 350; 350] 5) = 350 ∧
  getK (Tracker (CalPoint 273 300) (CalPoint 373 400)
                [350; 350; 350; 350; 350] 5) = Returns 323.
Proof.
  split; [reflexivity|].
  refine (proj1 (getK_truncated_interpolation
                   (Tracker (CalPoint 273 300) (CalPoint 373 400)
                            [350; 350; 350; 350; 350] 5) _ _ _ _ _));
    vm_compute; repeat split; congruence.
Defined.

(** The counterexample to C2: points (273, 300) and (274, 302), raw
    average 301: 273 in one order, 274 in the other. *)
Lemma getK_depends_on_order :
  ∃ t t',
    tracker_after (CalPoint 273 300) (CalPoint 274 302) (replicate 5 301)
    = Some t ∧
    tracker_after (CalPoint 274 302) (CalPoint 273 300) (replicate 5 301)
    = Some t' ∧
    getRaw t = 301 ∧ getRaw t' = 301 ∧
    getK t = Returns 273 ∧ getK t' = Returns 274 ∧
    getK t ≠ getK t'.
Proof.
  do 2 eexists. do 2 (split; [reflexivity|]).
  repeat split; vm_compute; congruence.
Qed.

(** C2, amended: for sensor-range readings and distinct hardware
    readings, the two orders of the points give results whose values
    before the reduction to 16 bits differ by one unit at most; they are
    identical whenever [(raw - P1.hw) * (P2.ref - P1.ref)] is a multiple
    of [P2.hw - P1.hw]. *)
Theorem getK_swap_within_one p1 p2 readings t t' :
  tracker_after p1 p2 readings = Some t →
  tracker_after p2 p1 readings = Some t' →
  wf_point p1 → wf_point p2 →
  sensor_range (_hwReading p1) → sensor_range (_hwReading p2) →
  _hwReading p1 ≠ _hwReading p2 →
  sensor_range (getRaw t) →
  getK t = Returns (to_uint16 (interpolation_trunc t)) ∧
  getK t' = Returns (to_uint16 (interpolation_trunc t')) ∧
  Z.abs (interpolation_trunc t - interpolation_trunc t') ≤ 1 ∧
  ((_hwReading p2 - _hwReading p1
    | (getRaw t - _hwReading p1) * (_tempK p2 - _tempK p1)) →
   getK t' = getK t).
Proof.
  intros Ht Ht' W1 W2 S1 S2 Hne Hraw.
  pose proof (tracker_after_swap _ _ _ _ _ Ht Ht') as ->.
  destruct (tracker_after_calPoints _ _ _ _ Ht) as [E1 E2].
  assert (getK t = Returns (to_uint16 (interpolation_trunc t))) as Hk.
  { rewrite <- E1 in W1, S1, Hne. rewrite <- E2 in W2, S2, Hne.
    pose proof (sensor_range_no_wrap t W1 W2 Hraw S1 S2).
    pose proof (sensor_range_quotient t W1 W2 Hraw S1 S2 Hne).
    apply getK_no_wrap; try done.
    - unfold long_range. lia.
    - destruct W1 as [W1 _]. unfold interpolation_trunc, long_range, uint16 in *.
      lia. }
  assert (getK (swap_points t)
          = Returns (to_uint16 (interpolation_trunc (swap_points t)))) as Hk'.
  { rewrite <- E1 in W1, S1, Hne. rewrite <- E2 in W2, S2, Hne.
    assert (sensor_range (getRaw (swap_points t))) as Hraw' by done.
    assert (_hwReading (_calPoint1 (swap_points t))
            ≠ _hwReading (_calPoint2 (swap_points t))) as Hne'
      by (simpl; congruence).
    pose proof (sensor_range_no_wrap (swap_points t) W2 W1 Hraw' S2 S1).
    pose proof (sensor_range_quotient (swap_points t) W2 W1 Hraw' S2 S1 Hne').
    apply getK_no_wrap; try done.
    - unfold long_range. lia.
    - destruct W2 as [W2 _].
      unfold interpolation_trunc, long_range, uint16 in *. simpl in *. lia. }
  assert (_hwReading (_calPoint1 t) ≠ _hwReading (_calPoint2 t)) as Hne0
    by congruence.
  destruct (interpolation_trunc_swap t Hne0) as [Hclose Hexact].
  repeat split; try done.
  intros Hdiv. rewrite Hk, Hk', Hexact; [done|].
  unfold interpolation_den. by rewrite E1, E2.
Qed.

Lemma getK_swap_within_one_witness :
  getK (Tracker (CalPoint 373 400) (CalPoint 273 300)
                [350; 350; 350; 350; 350] 5)
  = getK (Tracker (CalPoint 273 300) (CalPoint 373 400)
                  [350; 350; 350; 350; 350] 5).
Proof.
  refine (proj2 (proj2 (proj2
    (getK_swap_within_one (CalPoint 273 300) (CalPoint 373 400)
       (replicate 5 350) _ _ eq_refl eq_refl _ _ _ _ _ _))) _);
    vm_compute; repeat split; try congruence.
  by exists 50.
Defined.

End CalibrationClaims.

Section CalibrationPoints.

Implicit Types (t : ChipTemperature) (p : ChipTempCalPointK).

(** At the hardware reading of the first point the product is zero; at
    that of the second it is [(P2.hw - P1.hw) * (P2.ref - P1.ref)], and the
    quotient is exact as long as that product fits [long], which readings
    in the sensor's range ensure. *)
Lemma getK_at_points_when_product_fits t :
  wf_point (_calPoint1 t) → wf_point (_calPoint2 t) →
  _hwReading (_calPoint1 t) ≠ _hwReading (_calPoint2 t) →
  (getRaw t = _hwReading (_calPoint1 t) →
   getK t = Returns (_tempK (_calPoint1 t))) ∧
  (getRaw t = _hwReading (_calPoint2 t) →
   long_range ((_hwReading (_calPoint2 t) - _hwReading (_calPoint1 t))
               * (_tempK (_calPoint2 t) - _tempK (_calPoint1 t))) →
   getK t = Returns (_tempK (_calPoint2 t))) ∧
  (sensor_range (_hwReading (_calPoint1 t)) →
   sensor_range (_hwReading (_calPoint2 t)) →
   long_range ((_hwReading (_calPoint2 t) - _hwReading (_calPoint1 t))
               * (_tempK (_calPoint2 t) - _tempK (_calPoint1 t)))).
Proof.
  intros W1 W2 Hne. split; [|split].
  - intros Hraw.
    assert (getK_quotient t = 0) as Hq.
    { unfold getK_quotient. rewrite Hraw, Z.sub_diag, Z.mul_0_l.
      apply Z.quot_0_l. lia. }
    rewrite getK_no_wrap; try done.
    + unfold interpolation_trunc. rewrite Hq. simpl. f_equal.
      apply to_uint16_id, W1.
    + rewrite Hraw, Z.sub_diag, Z.mul_0_l. unfold long_range. lia.
    + unfold interpolation_trunc. rewrite Hq. apply uint16_long, W1.
  - intros Hraw Hprod. destruct W2 as [W2 W2'].
    assert (getK_quotient t = _tempK (_calPoint2 t) - _tempK (_calPoint1 t))
      as Hq.
    { unfold getK_quotient. rewrite Hraw, Z.mul_comm. apply Z.quot_mul. lia. }
    rewrite getK_no_wrap; try done.
    + unfold interpolation_trunc. rewrite Hq. f_equal.
      rewrite Z.sub_add. by apply to_uint16_id.
    + by rewrite Hraw.
    + unfold interpolation_trunc. rewrite Hq, Z.sub_add. by apply uint16_long.
  - destruct W1 as [W1 _], W2 as [W2 _].
    unfold sensor_range, long_range, uint16 in *. intros S1 S2. nia.
Qed.

(** C4: for every two-point calibration whose points have distinct hardware
    readings, and for either order in which the points are supplied, [getK]
    returns exactly [P1.referenceTemperature] when the raw average equals
    [P1.hardwareReading], and exactly [P2.referenceTemperature] when it
    equals [P2.hardwareReading]. A hardware reading is, as the header
    defines [hwReading], a value of [getRaw ()]: a value of the sensor, in
    [0, 1023]. *)
Theorem getK_exact_at_calibration_points t :
  wf_point (_calPoint1 t) → wf_point (_calPoint2 t) →
  sensor_range (_hwReading (_calPoint1 t)) →
  sensor_range (_hwReading (_calPoint2 t)) →
  _hwReading (_calPoint1 t) ≠ _hwReading (_calPoint2 t) →
  (getRaw t = _hwReading (_calPoint1 t) →
   getK t = Returns (_tempK (_calPoint1 t)) ∧
   getK (swap_points t) = Returns (_tempK (_calPoint1 t))) ∧
  (getRaw t = _hwReading (_calPoint2 t) →
   getK t = Returns (_tempK (_calPoint2 t)) ∧
   getK (swap_points t) = Returns (_tempK (_calPoint2 t))).
Proof.
  intros W1 W2 S1 S2 Hne.
  destruct (getK_at_points_when_product_fits t W1 W2 Hne)
    as (Hfirst & Hsecond & Hfits).
  assert (_hwReading (_calPoint1 (swap_points t))
          ≠ _hwReading (_calPoint2 (swap_points t))) as Hne'
    by (simpl; congruence).
  destruct (getK_at_points_when_product_fits (swap_points t) W2 W1 Hne')
    as (Hfirst' & Hsecond' & Hfits').
  simpl in Hfirst', Hsecond', Hfits'.
  change (getRaw (swap_points t)) with (getRaw t) in Hfirst', Hsecond'.
  split; intros Hraw; split; auto.
Qed.

Lemma getK_exact_at_calibration_points_witness :
  getK (Tracker (CalPoint 273 300) (CalPoint 373 400)
                [300; 300; 300; 300; 300] 5) = Returns 273 ∧
  getK (Tracker (CalPoint 373 400) (CalPoint 273 300)
                [300; 300; 300; 300; 300] 5) = Returns 273 ∧
  getK (Tracker (CalPoint 273 300) (CalPoint 373 400)
                [400; 400; 400; 400; 400] 5) = Returns 373 ∧
  getK (Tracker (CalPoint 373 400) (CalPoint 273 300)
                [400; 400; 400; 400; 400] 5) = Returns 373.
Proof.
  assert (wf_point (CalPoint 273 300)) as W1
    by (unfold wf_point, uint16; simpl; lia).
  assert (wf_point (CalPoint 373 400)) as W2
    by (unfold wf_point, uint16; simpl; lia).
  assert (sensor_range 300) as S1 by (unfold sensor_range; lia).
  assert (sensor_range 400) as S2 by (unfold sensor_range; lia).
  assert (300 ≠ 400) as Hne by lia.
  destruct (getK_exact_at_calibration_points
              (Tracker (CalPoint 273 300) (CalPoint 373 400)
                       [300; 300; 300; 300; 300] 5) W1 W2 S1 S2 Hne)
    as [Hlow _].
  destruct (getK_exact_at_calibration_points
              (Tracker (CalPoint 273 300) (CalPoint 373 400)
                       [400; 400; 400; 400; 400] 5) W1 W2 S1 S2 Hne)
    as [_ Hhigh].
  destruct (Hlow eq_refl) as [H1 H2]. destruct (Hhigh eq_refl) as [H3 H4].
  split; [exact H1|]. split; [exact H2|]. split; [exact H3 | exact H4].
Defined.

(** C9: for a raw average and hardware readings in [0, 1023] and reference
    temperatures in [uint16_t], every operand of [getK], the product, the
    quotient and the sum fit the 32-bit [long], and [getK] is the exact
    truncating evaluation of the formula reduced to 16 bits. *)
Theorem getK_long_suffices t :
  wf_point (_calPoint1 t) → wf_point (_calPoint2 t) →
  sensor_range (getRaw t) →
  sensor_range (_hwReading (_calPoint1 t)) →
  sensor_range (_hwReading (_calPoint2 t)) →
  Forall long_range (getK_operands t) ∧
  (_hwReading (_calPoint1 t) ≠ _hwReading (_calPoint2 t) →
   long_range (getK_quotient t) ∧
   long_range (getK_quotient t + _tempK (_calPoint1 t)) ∧
   getK t = Returns (to_uint16 (getK_quotient t + _tempK (_calPoint1 t)))).
Proof.
  intros W1 W2 Hraw S1 S2.
  pose proof (sensor_range_no_wrap t W1 W2 Hraw S1 S2) as Hprod.
  split.
  - destruct W1 as [W1 W1'], W2 as [W2 W2'].
    unfold getK_operands, sensor_range, uint16 in *.
    repeat apply Forall_cons_2; try apply Forall_nil_2;
      unfold long_range; lia.
  - intros Hne.
    pose proof (sensor_range_quotient t W1 W2 Hraw S1 S2 Hne) as Hq.
    assert (long_range (getK_quotient t + _tempK (_calPoint1 t))) as Hsum.
    { destruct W1 as [W1 _]. unfold long_range, uint16 in *. lia. }
    split; [unfold long_range; lia|]. split; [done|].
    apply getK_no_wrap; try done. unfold long_range. lia.
Qed.

Lemma getK_long_suffices_witness :
  Forall long_range
    (getK_operands (Tracker (CalPoint 65535 0) (CalPoint 0 1)
                            [1023; 1023; 1023; 1023; 1023] 5)) ∧
  getK (Tracker (CalPoint 65535 0) (CalPoint 0 1)
                [1023; 1023; 1023; 1023; 1023] 5)
  = Returns (to_uint16 (-67042305 + 65535)).
Proof.
  assert (wf_point (CalPoint 65535 0)) as W1
    by (unfold wf_point, uint16; simpl; lia).
  assert (wf_point (CalPoint 0 1)) as W2
    by (unfold wf_point, uint16; simpl; lia).
  assert (sensor_range 1023) as S by (unfold sensor_range; lia).
  assert (sensor_range 0) as S1 by (unfold sensor_range; lia).
  assert (sensor_range 1) as S2 by (unfold sensor_range; lia).
  destruct (getK_long_suffices
              (Tracker (CalPoint 65535 0) (CalPoint 0 1)
                       [1023; 1023; 1023; 1023; 1023] 5) W1 W2 S S1 S2)
    as [Hops Hk].
  split; [exact Hops|]. apply Hk. simpl. lia.
Defined.

(** C6: a tracker built by the no-argument constructor has
    [getK () == getRaw ()] in every state it reaches. *)
Theorem uncalibrated_getK_is_getRaw (readings : list Z) :
  getK (run readings ChipTemperature_uncalibrated)
  = Returns (getRaw (run readings ChipTemperature_uncalibrated)).
Proof.
  set (t := run readings ChipTemperature_uncalibrated).
  destruct (run_calPoints readings ChipTemperature_uncalibrated) as [E1 E2].
  fold t in E1, E2. simpl in E1, E2.
  pose proof (getRaw_uint16 t) as Hraw.
  assert (getK_quotient t = getRaw t) as Hq.
  { unfold getK_quotient. rewrite E1, E2. simpl.
    change (to_uint16 0) with 0. change (to_uint16 1) with 1.
    change (1 - 0) with 1. rewrite Z.sub_0_r, Z.mul_1_r. apply Z.quot_1_r. }
  rewrite getK_no_wrap.
  - unfold interpolation_trunc. rewrite Hq, E1. simpl.
    change (to_uint16 0) with 0. rewrite Z.add_0_r.
    f_equal. by apply to_uint16_id.
  - rewrite E1. vm_compute. repeat split; congruence.
  - rewrite E2. vm_compute. repeat split; congruence.
  - rewrite E1, E2. vm_compute. congruence.
  - rewrite E1, E2. simpl.
    change (to_uint16 0) with 0. change (to_uint16 1) with 1.
    change (1 - 0) with 1. rewrite Z.sub_0_r, Z.mul_1_r. by apply uint16_long.
  - unfold interpolation_trunc. rewrite Hq, E1. simpl.
    change (to_uint16 0) with 0. rewrite Z.add_0_r. by apply uint16_long.
Qed.

(** With points of the right type and distinct hardware readings the
    divisor of [getK] is not zero and a value comes back. *)
Lemma getK_returns t :
  wf_point (_calPoint1 t) → wf_point (_calPoint2 t) →
  _hwReading (_calPoint1 t) ≠ _hwReading (_calPoint2 t) →
  ∃ v, getK t = Returns v ∧ uint16 v.
Proof.
  intros [_ W1] [_ W2] Hne.
  assert (long_sub (to_long (_hwReading (_calPoint2 t)))
                   (to_long (_hwReading (_calPoint1 t))) ≠ 0) as Hd.
  { unfold long_sub.
    rewrite !(to_long_id (_hwReading _)) by by apply uint16_long.
    rewrite to_long_id by (unfold uint16, long_range in *; lia). lia. }
  unfold getK, long_div. rewrite decide_False by exact Hd.
  eexists. split; [reflexivity | apply to_uint16_range].
Qed.

(** C3: constructing a tracker with two calibration points whose hardware
    readings are equal is rejected at construction; a tracker that was
    constructed keeps its two points, their hardware readings are distinct,
    and in every state it reaches [getK] returns a value: the division by
    [P2.hw - P1.hw] never has a zero divisor. *)
Theorem equal_readings_rejected p1 p2 :
  wf_point p1 → wf_point p2 →
  (_hwReading p1 = _hwReading p2 → ChipTemperature_calibrated p1 p2 = None) ∧
  (∀ t (readings : list Z),
     ChipTemperature_calibrated p1 p2 = Some t →
     _calPoint1 (run readings t) = p1 ∧ _calPoint2 (run readings t) = p2 ∧
     _hwReading p1 ≠ _hwReading p2 ∧
     ∃ v, getK (run readings t) = Returns v ∧ uint16 v).
Proof.
  intros W1 W2. unfold ChipTemperature_calibrated. split.
  - intros Heq. by rewrite (proj2 (Z.eqb_eq _ _) Heq).
  - intros t readings.
    destruct (Z.eqb_spec (_hwReading p1) (_hwReading p2)) as [|Hne];
      [discriminate|].
    intros [= <-].
    match goal with |- context [run readings ?u] =>
      destruct (run_calPoints readings u) as [E1 E2] end.
    simpl in E1, E2.
    split; [done|]. split; [done|]. split; [done|].
    apply getK_returns; rewrite ?E1, ?E2; done.
Qed.

Lemma equal_readings_rejected_witness :
  ChipTemperature_calibrated (CalPoint 273 300) (CalPoint 373 300) = None.
Proof.
  refine (proj1 (equal_readings_rejected
                   (CalPoint 273 300) (CalPoint 373 300) _ _) eq_refl).
  - unfold wf_point, uint16. simpl. lia.
  - unfold wf_point, uint16. simpl. lia.
Defined.

End CalibrationPoints.

(** ** The ring of samples *)

Section Ring.

Implicit Types (t : ChipTemperature) (readings samples window : list Z).

Lemma slot_next (n : nat) : ((S n + 4) mod 5 = n mod 5)%nat.
Proof.
  replace (S n + 4)%nat with (n + 1 * 5)%nat by lia.
  by rewrite Nat.Div0.mod_add.
Qed.

Lemma slot_other (n i : nat) :
  (i < 4)%nat →
  ((S n + i) mod 5 = (n + S i) mod 5)%nat ∧ ((n + S i) mod 5 ≠ n mod 5)%nat.
Proof.
  intros Hi. split; [f_equal; lia|].
  rewrite <- (Nat.Div0.add_mod_idemp_l n (S i) 5).
  pose proof (Nat.mod_upper_bound n 5).
  destruct (n mod 5)%nat as [|[|[|[|[|]]]]]; [| | | | |lia];
    destruct i as [|[|[|[|]]]]; simpl; lia.
Qed.

(** One tick turns the ring by one slot. *)
Lemma ring_step n samples window x :
  ring n samples window →
  ring (S n) (<[(n mod CHIPTEMP_SAMPLES_FOR_AVG)%nat := x]> samples)
       (drop 1 window ++ [x]).
Proof.
  unfold ring, CHIPTEMP_SAMPLES_FOR_AVG. intros (Hs & Hw & H).
  split; [by rewrite length_insert|].
  split; [rewrite length_app, length_drop; simpl; lia|].
  intros i Hi. destruct (decide (i = 4%nat)) as [->|Hne].
  - rewrite slot_next, list_lookup_insert_eq
      by (rewrite Hs; apply Nat.mod_upper_bound; lia).
    rewrite lookup_app_r by (rewrite length_drop; lia).
    rewrite length_drop, Hw. done.
  - destruct (slot_other n i) as [-> Hslot]; [lia|].
    rewrite list_lookup_insert_ne by done.
    rewrite H by lia.
    rewrite lookup_app_l by (rewrite length_drop; lia).
    rewrite lookup_drop. f_equal.
Qed.

(** The slots of the ring are the window, turned: same sum. *)
Lemma ring_sum n samples window :
  ring n samples window → sum_samples samples = sum_samples window.
Proof.
  unfold ring, CHIPTEMP_SAMPLES_FOR_AVG. intros (Hs & Hw & H).
  destruct samples as [|a [|b [|c [|d [|e [|]]]]]]; try discriminate Hs.
  destruct window as [|a' [|b' [|c' [|d' [|e' [|]]]]]]; try discriminate Hw.
  pose proof (H 0%nat) as H0. pose proof (H 1%nat) as H1.
  pose proof (H 2%nat) as H2. pose proof (H 3%nat) as H3.
  pose proof (H 4%nat) as H4.
  rewrite <- (Nat.Div0.add_mod_idemp_l n 0 5) in H0.
  rewrite <- (Nat.Div0.add_mod_idemp_l n 1 5) in H1.
  rewrite <- (Nat.Div0.add_mod_idemp_l n 2 5) in H2.
  rewrite <- (Nat.Div0.add_mod_idemp_l n 3 5) in H3.
  rewrite <- (Nat.Div0.add_mod_idemp_l n 4 5) in H4.
  pose proof (Nat.mod_upper_bound n 5).
  destruct (n mod 5)%nat as [|[|[|[|[|]]]]]; [| | | | |lia];
    simpl in *; specialize (H0 ltac:(lia)); specialize (H1 ltac:(lia));
    specialize (H2 ltac:(lia)); specialize (H3 ltac:(lia));
    specialize (H4 ltac:(lia)); simplify_eq; lia.
Qed.

Lemma history_snoc readings r :
  history (readings ++ [r]) = history readings ++ [to_uint16 r].
Proof. unfold history. by rewrite fmap_app, app_assoc. Qed.

Lemma length_history readings :
  length (history readings) = (CHIPTEMP_SAMPLES_FOR_AVG + length readings)%nat.
Proof. unfold history. by rewrite length_app, length_replicate, length_fmap. Qed.

Lemma loop_samples r t :
  _samples (loop r t)
  = <[(tickCount t mod CHIPTEMP_SAMPLES_FOR_AVG)%nat := to_uint16 r]> (_samples t).
Proof. done. Qed.

(** After any sequence of ticks from the reset state, the counter is the
    number of ticks and the buffer is the ring of the last [N] entries of
    the history. *)
Lemma run_ring readings t :
  tickCount (run readings (_resetObject t)) = length readings ∧
  ring (length readings) (_samples (run readings (_resetObject t)))
       (drop (length readings) (history readings)).
Proof.
  induction readings as [|r readings [IHn IHr]] using rev_ind.
  - split; [done|]. unfold ring, CHIPTEMP_SAMPLES_FOR_AVG. simpl.
    repeat split. intros i Hi.
    destruct i as [|[|[|[|[|]]]]]; simpl; first [done | lia].
  - rewrite run_snoc, length_app, Nat.add_1_r.
    split; [simpl; by rewrite IHn|].
    rewrite loop_samples, IHn, history_snoc.
    rewrite drop_app_le
      by (rewrite length_history; unfold CHIPTEMP_SAMPLES_FOR_AVG; lia).
    replace (S (length readings)) with (length readings + 1)%nat by lia.
    rewrite <- drop_drop, Nat.add_1_r.
    by apply ring_step.
Qed.

Lemma run_samples_length readings t :
  length (_samples (run readings (_resetObject t))) = CHIPTEMP_SAMPLES_FOR_AVG.
Proof. apply (run_ring readings t). Qed.

(** Once [N] ticks have passed, the window holds readings only. *)
Lemma window_of_readings readings :
  (CHIPTEMP_SAMPLES_FOR_AVG ≤ length readings)%nat →
  drop (length readings) (history readings)
  = to_uint16 <$> drop (length readings - CHIPTEMP_SAMPLES_FOR_AVG) readings.
Proof.
  intros Hlen. unfold history.
  rewrite drop_app_ge by (rewrite length_replicate; lia).
  by rewrite length_replicate, fmap_drop.
Qed.

(** C5: over a sequence of more than [N = 5] ticks, each tick writes its
    sample at slot [tickCount mod N]; the entry it replaces there is the
    one written [N] ticks before, the oldest; and [getRaw] is the
    truncated mean of the [N] most recent samples only. *)
Theorem loop_overwrites_oldest t readings :
  (CHIPTEMP_SAMPLES_FOR_AVG < length readings)%nat →
  (∀ (k : nat) r, readings !! k = Some r →
     tickCount (run (take k readings) (_resetObject t)) = k ∧
     _samples (run (take (S k) readings) (_resetObject t))
     = <[(k mod CHIPTEMP_SAMPLES_FOR_AVG)%nat := to_uint16 r]>
         (_samples (run (take k readings) (_resetObject t))) ∧
     _samples (run (take (S k) readings) (_resetObject t))
       !! (k mod CHIPTEMP_SAMPLES_FOR_AVG)%nat = Some (to_uint16 r)) ∧
  (∀ (k : nat) r r', readings !! k = Some r →
     readings !! (CHIPTEMP_SAMPLES_FOR_AVG + k)%nat = Some r' →
     _samples (run (take (CHIPTEMP_SAMPLES_FOR_AVG + k) readings) (_resetObject t))
       !! ((CHIPTEMP_SAMPLES_FOR_AVG + k) mod CHIPTEMP_SAMPLES_FOR_AVG)%nat
     = Some (to_uint16 r)) ∧
  getRaw (run readings (_resetObject t))
  = truncated_mean
      (to_uint16 <$> drop (length readings - CHIPTEMP_SAMPLES_FOR_AVG) readings).
Proof.
  intros Hlen. split; [|split].
  - intros k r Hk.
    pose proof (lookup_lt_Some _ _ _ Hk) as Hlt.
    destruct (run_ring (take k readings) t) as [Hn _].
    rewrite length_take, Nat.min_l in Hn by lia.
    split; [done|].
    rewrite (take_S_r _ _ _ Hk), run_snoc, loop_samples, Hn.
    split; [done|].
    apply list_lookup_insert_eq. rewrite run_samples_length.
    by apply Nat.mod_upper_bound.
  - intros k r r' Hk Hk'.
    pose proof (lookup_lt_Some _ _ _ Hk') as Hlt.
    destruct (run_ring (take (CHIPTEMP_SAMPLES_FOR_AVG + k) readings) t)
      as [_ (_ & _ & Hring)].
    rewrite length_take, Nat.min_l in Hring by lia.
    specialize (Hring 0%nat ltac:(unfold CHIPTEMP_SAMPLES_FOR_AVG; lia)).
    rewrite Nat.add_0_r in Hring. rewrite Hring.
    rewrite lookup_drop, Nat.add_0_r. unfold history.
    rewrite lookup_app_r by (rewrite length_replicate; lia).
    rewrite length_replicate, list_lookup_fmap.
    replace (CHIPTEMP_SAMPLES_FOR_AVG + k - CHIPTEMP_SAMPLES_FOR_AVG)%nat
      with k by lia.
    rewrite lookup_take_lt by (unfold CHIPTEMP_SAMPLES_FOR_AVG; lia).
    by rewrite Hk.
  - destruct (run_ring readings t) as [_ Hring].
    unfold getRaw, truncated_mean.
    rewrite (ring_sum _ _ _ Hring), window_of_readings by lia. done.
Qed.

(** The example of the specification: ticks [10, 12, 11, 13, 9, 100]; the
    sixth goes to slot 0 over the 10, and the mean is that of
    [12, 11, 13, 9, 100], 29. *)
Lemma loop_overwrites_oldest_witness :
  _samples (run [10; 12; 11; 13; 9; 100] ChipTemperature_uncalibrated)
  = [100; 12; 11; 13; 9] ∧
  getRaw (run [10; 12; 11; 13; 9; 100] ChipTemperature_uncalibrated)
  = truncated_mean [12; 11; 13; 9; 100] ∧
  truncated_mean [12; 11; 13; 9; 100] = 29.
Proof.
  split; [reflexivity|]. split; [|reflexivity].
  refine (proj2 (proj2 (loop_overwrites_oldest
            ChipTemperature_uncalibrated [10; 12; 11; 13; 9; 100] _))).
  unfold CHIPTEMP_SAMPLES_FOR_AVG. simpl. lia.
Defined.

End Ring.

(** ** Acquisition *)

Section Acquisition.

Implicit Types (s : ADC.state) (fuel d : nat) (r : Z).

(** The poll ends once the conversion does, and leaves its result. *)
Lemma poll_wait_complete d : ∀ fuel s r,
  ADC.converting s = Some (d, r) →
  Z.testbit (ADC.ADCSRA s) ADC.ADSC = true →
  (d + 2 ≤ fuel)%nat →
  ADC.poll_wait fuel s = Some (tt, ADC.complete r s).
Proof.
  induction d as [|d IH]; intros fuel s r Hc Hb Hf.
  - destruct fuel as [|[|fuel]]; [lia|lia|].
    cbn [ADC.poll_wait]. unfold ADC.bind at 1, ADC.read_ADCSRA at 1.
    rewrite Hb. unfold ADC.advance at 1. rewrite Hc.
    cbn [ADC.poll_wait]. unfold ADC.bind, ADC.read_ADCSRA.
    assert (Z.testbit (ADC.ADCSRA (ADC.complete r s)) ADC.ADSC = false) as ->.
    { cbn [ADC.complete ADC.log ADC.ADCSRA].
      rewrite Z.setbit_neq by done. apply Z.clearbit_eq. }
    done.
  - destruct fuel as [|fuel]; [lia|].
    cbn [ADC.poll_wait]. unfold ADC.bind at 1, ADC.read_ADCSRA at 1.
    rewrite Hb. unfold ADC.advance. rewrite Hc.
    rewrite (IH fuel _ r); [done|done|done|lia].
Qed.

(** The ten bits of a result come back from the two bytes. *)
Lemma assemble_result r :
  sensor_range r → assemble (to_uint8 (Z.shiftr r 8)) (to_uint8 r) = r.
Proof.
  intros Hr.
  assert (forallb (λ r, assemble (to_uint8 (Z.shiftr r 8)) (to_uint8 r) =? r)
                  (seqZ 0 1024) = true) as Hall by (vm_compute; reflexivity).
  rewrite forallb_forall in Hall.
  apply Z.eqb_eq, Hall, list_elem_of_In, elem_of_seqZ.
  unfold sensor_range in Hr. lia.
Qed.


Lemma start_conversion s d r rest :
  adc_idle s → ADC.upcoming s = (d, r) :: rest →
  ADC.write_ADCSRA (Z.lor (ADC.ADCSRA s) (ADC._BV ADC.ADSC)) s
  = Some (tt, ADC.log ADC.ConversionStarted
                {| ADC.ADMUX := ADC.ADMUX s;
                   ADC.ADCSRA :=
                     Z.setbit
                       (Z.clearbit
                          (to_uint8 (Z.lor (ADC.ADCSRA s) (ADC._BV ADC.ADSC)))
                          ADC.ADIF)
                       ADC.ADSC;
                   ADC.ADCSRB := ADC.ADCSRB s; ADC.ADCL := ADC.ADCL s;
                   ADC.ADCH := ADC.ADCH s; ADC.converting := Some (d, r);
                   ADC.upcoming := rest; ADC.latched := ADC.latched s;
                   ADC.trace := ADC.trace s |}).
Proof.
  intros (Hc & Hb & Hl) Hu. unfold ADC.write_ADCSRA.
  rewrite Hc, Hu.
  assert (Z.testbit (Z.lor (ADC.ADCSRA s) (ADC._BV ADC.ADSC)) ADC.ADSC = true)
    as -> by (rewrite Z.lor_spec; apply orb_true_r).
  assert (Z.testbit (ADC.ADCSRA s) ADC.ADIF
          && negb (Z.testbit (Z.lor (ADC.ADCSRA s) (ADC._BV ADC.ADSC)) ADC.ADIF)
          = false) as ->; [|reflexivity].
  rewrite Z.lor_spec. by destruct (Z.testbit (ADC.ADCSRA s) ADC.ADIF).
Qed.

(** One conversion from rest: start, poll, read the low byte, read the
    high byte. *)
Lemma conversion_step {A} (K : Z → Z → ADC.HW A) fuel s d r rest :
  adc_idle s → ADC.upcoming s = (d, r) :: rest →
  Z.testbit (ADC.ADMUX s) ADC.ADLAR = false →
  (d + 2 ≤ fuel)%nat →
  (a ← ADC.read_ADCSRA;
   ADC.write_ADCSRA (Z.lor a (ADC._BV ADC.ADSC));;
   ADC.poll_wait fuel;;
   low ← ADC.read_ADCL;
   high ← ADC.read_ADCH;
   K low high) s
  = K (to_uint8 r) (to_uint8 (Z.shiftr r 8)) (after_conversion r rest s).
Proof.
  intros Hidle Hu Hadlar Hf.
  pose proof Hidle as (Hc & Hb & Hl).
  unfold mbind, hw_bind.
  unfold ADC.bind at 1, ADC.read_ADCSRA at 1, ADC.advance. rewrite Hc.
  unfold ADC.bind at 1. rewrite (start_conversion s d r rest) by done.
  unfold ADC.bind at 1.
  erewrite poll_wait_complete; [| reflexivity | apply Z.setbit_eq; done | done].
  unfold ADC.bind at 1, ADC.read_ADCL at 1.
  unfold ADC.bind at 1, ADC.read_ADCH at 1.
  cbn [ADC.complete ADC.log ADC.ADMUX ADC.ADCSRA ADC.ADCSRB ADC.ADCL ADC.ADCH
       ADC.converting ADC.upcoming ADC.latched ADC.trace].
  rewrite Hadlar, Hl. f_equal.
  unfold after_conversion, ADC.log.
  cbn [ADC.ADMUX ADC.ADCSRA ADC.ADCSRB ADC.ADCL ADC.ADCH
       ADC.converting ADC.upcoming ADC.latched ADC.trace].
  f_equal. by rewrite <- !app_assoc.
Qed.

Lemma after_conversion_idle r rest s : adc_idle (after_conversion r rest s).
Proof.
  unfold adc_idle, after_conversion, adcsra_after_conversion.
  cbn [ADC.ADCSRA ADC.converting ADC.latched].
  repeat split. rewrite Z.setbit_neq by done. apply Z.clearbit_eq.
Qed.

(** C8: a call on a converter at rest starts two conversions with
    [delayMicroseconds (2)] between them, reads after each the low byte
    and then the high byte, and returns the result of the second
    conversion, [(high << 8) | low], a value in [0, 1023]. *)
Theorem chipTemperatureReadRaw_second_conversion s fuel d1 d2 r1 r2 rest :
  adc_idle s →
  ADC.upcoming s = (d1, r1) :: (d2, r2) :: rest →
  sensor_range r2 →
  (d1 + 2 ≤ fuel)%nat → (d2 + 2 ≤ fuel)%nat →
  ∃ v s',
    chipTemperatureReadRaw fuel s = Some (v, s') ∧
    v = r2 ∧
    v = assemble (to_uint8 (Z.shiftr r2 8)) (to_uint8 r2) ∧
    sensor_range v ∧
    ADC.trace s'
    = ADC.trace s ++
      [ADC.ConversionStarted; ADC.ConversionComplete r1;
       ADC.ReadADCL (to_uint8 r1); ADC.ReadADCH (to_uint8 (Z.shiftr r1 8));
       ADC.DelayMicroseconds 2;
       ADC.ConversionStarted; ADC.ConversionComplete r2;
       ADC.ReadADCL (to_uint8 r2); ADC.ReadADCH (to_uint8 (Z.shiftr r2 8))] ∧
    adc_idle s' ∧ ADC.upcoming s' = rest.
Proof.
  intros Hidle Hu Hr2 Hf1 Hf2.
  pose proof Hidle as (Hc & Hb & Hl).
  unfold chipTemperatureReadRaw.
  unfold mbind at 1, hw_bind at 1, ADC.bind at 1, ADC.write_ADMUX at 1.
  unfold mbind at 1, hw_bind at 1, ADC.bind at 1, ADC.read_ADCSRB at 1.
  unfold mbind at 1, hw_bind at 1, ADC.bind at 1, ADC.write_ADCSRB at 1.
  cbn [ADC.ADMUX ADC.ADCSRA ADC.ADCSRB ADC.ADCL ADC.ADCH
       ADC.converting ADC.upcoming ADC.latched ADC.trace].
  set (s1 := ADC.State _ _ _ _ _ _ _ _ _).
  rewrite (conversion_step _ fuel s1 d1 r1 ((d2, r2) :: rest));
    [|done|done|done|done].
  unfold mbind at 1, hw_bind at 1, ADC.bind at 1, ADC.delayMicroseconds at 1.
  set (s2 := ADC.log _ _).
  assert (adc_idle s2) as Hidle2
    by exact (after_conversion_idle r1 ((d2, r2) :: rest) s1).
  rewrite (conversion_step _ fuel s2 d2 r2 rest); [|done|done|done|done].
  cbv beta. unfold mret, hw_ret, ADC.ret.
  change (Z.lor (to_int _) _)
    with (assemble (to_uint8 (Z.shiftr r2 8)) (to_uint8 r2)).
  exists r2, (after_conversion r2 rest s2).
  rewrite assemble_result by done.
  split; [done|]. split; [done|]. split; [done|]. split; [done|].
  split; [|split; [apply after_conversion_idle | done]].
  unfold after_conversion, s2, ADC.log, after_conversion, s1.
  cbn [ADC.trace]. by rewrite <- !app_assoc.
Qed.

Lemma chipTemperatureReadRaw_second_conversion_witness :
  ∃ s',
    chipTemperatureReadRaw 5
      (ADC.State 0 135 0 0 0 None [(3%nat, 300); (2%nat, 301)] false [])
    = Some (301, s') ∧
    ADC.trace s'
    = [ADC.ConversionStarted; ADC.ConversionComplete 300;
       ADC.ReadADCL 44; ADC.ReadADCH 1;
       ADC.DelayMicroseconds 2;
       ADC.ConversionStarted; ADC.ConversionComplete 301;
       ADC.ReadADCL 45; ADC.ReadADCH 1].
Proof.
  destruct (chipTemperatureReadRaw_second_conversion
              (ADC.State 0 135 0 0 0 None [(3%nat, 300); (2%nat, 301)] false [])
              5 3 2 300 301 [])
    as (v & s' & Hrun & Hv & _ & _ & Htrace & _).
  - unfold adc_idle. repeat split; reflexivity.
  - reflexivity.
  - unfold sensor_range. lia.
  - lia.
  - lia.
  - subst v. exists s'. split; [exact Hrun | exact Htrace].
Defined.

End Acquisition.

(** * Further properties of the code *)

(** ** Conversions and calibration-point constructors *)

Section ConversionRanges.

Lemma to_uint16_idemp z : to_uint16 (to_uint16 z) = to_uint16 z.
Proof. apply to_uint16_id, to_uint16_range. Qed.

(** [kelvinToCelsius] undoes a reduction to [uint16_t] whenever the
    Celsius value is an [int]. *)
Lemma kelvinToCelsius_to_uint16 x :
  int_range (x - 273) → kelvinToCelsius (to_uint16 x) = x - 273.
Proof.
  intros Hx. apply int_range_mod_inj; [apply to_int_range | done |].
  rewrite kelvinToCelsius_mod, <- Zminus_mod_idemp_l, to_uint16_mod.
  by rewrite Zminus_mod_idemp_l.
Qed.

(** Truncating division by a positive number keeps the order. *)
Lemma quot_bounds lo hi a d :
  0 < d → lo ≤ a ≤ hi → lo `quot` d ≤ a `quot` d ≤ hi `quot` d.
Proof. intros Hd [Hlo Hhi]. split; by apply Z.quot_le_mono. Qed.

Lemma calPointC_tempK c hw :
  _tempK (mkChipTempCalPointC c hw) = celsiusToKelvin c.
Proof.
  unfold mkChipTempCalPointC, mkChipTempCalPointK, celsiusToKelvin. simpl.
  by rewrite !to_uint16_idemp.
Qed.

Lemma celsiusToKelvin_no_wrap c :
  -273 ≤ c ≤ 32494 → celsiusToKelvin c = c + 273.
Proof.
  intros Hc. unfold celsiusToKelvin, int_add, CHIPTEMP_CELSIUS_ZERO.
  rewrite to_int_id by (unfold int_range; lia).
  apply to_uint16_id. unfold uint16. lia.
Qed.

(** The Fahrenheit constructor where no [int] intermediate wraps. *)
Lemma calPointF_tempK_no_wrap f hw :
  -6521 ≤ f ≤ 6585 →
  _tempK (mkChipTempCalPointF f hw)
  = to_uint16 (((f - 32) * 5) `quot` 9 + 273) ∧
  -3640 ≤ ((f - 32) * 5) `quot` 9 ≤ 3640.
Proof.
  intros Hf.
  assert (-3640 ≤ ((f - 32) * 5) `quot` 9 ≤ 3640) as Hq.
  { apply (quot_bounds (-32765) 32765 ((f - 32) * 5) 9); lia. }
  split; [|done].
  unfold mkChipTempCalPointF, mkChipTempCalPointK, int_add, int_div, int_mul,
    int_sub, CHIPTEMP_FAHRENHEIT_0_C, CHIPTEMP_FAHRENHEIT_NUM,
    CHIPTEMP_FAHRENHEIT_DENOM, CHIPTEMP_CELSIUS_ZERO. simpl.
  rewrite to_uint16_idemp.
  rewrite (to_int_id (f - 32)) by (unfold int_range; lia).
  rewrite (to_int_id ((f - 32) * 5)) by (unfold int_range; lia).
  rewrite (to_int_id (((f - 32) * 5) `quot` 9)) by (unfold int_range; lia).
  rewrite (to_int_id (((f - 32) * 5) `quot` 9 + 273)) by (unfold int_range; lia).
  done.
Qed.

Lemma celsiusToFahrenheit_no_wrap c :
  -6553 ≤ c ≤ 6553 →
  celsiusToFahrenheit c = (c * 5) `quot` 9 + 32 ∧
  -3640 ≤ (c * 5) `quot` 9 ≤ 3640.
Proof.
  intros Hc.
  assert (-3640 ≤ (c * 5) `quot` 9 ≤ 3640) as Hq.
  { apply (quot_bounds (-32765) 32765 (c * 5) 9); lia. }
  split; [|done].
  unfold celsiusToFahrenheit, int_add, int_div, int_mul,
    CHIPTEMP_FAHRENHEIT_NUM, CHIPTEMP_FAHRENHEIT_DENOM, CHIPTEMP_FAHRENHEIT_0_C.
  rewrite (to_int_id (c * 5)) by (unfold int_range; lia).
  rewrite (to_int_id ((c * 5) `quot` 9)) by (unfold int_range; lia).
  apply to_int_id. unfold int_range. lia.
Qed.

(** X1: a Celsius calibration point stores [celsiusToKelvin tempC], both
    fields are [uint16_t] values, and [kelvinToCelsius] gives [tempC] back,
    for every [int] [tempC]. *)
Theorem calPointC_round_trip (tempC hwReading : Z) :
  int_range tempC →
  _tempK (mkChipTempCalPointC tempC hwReading) = celsiusToKelvin tempC ∧
  wf_point (mkChipTempCalPointC tempC hwReading) ∧
  kelvinToCelsius (_tempK (mkChipTempCalPointC tempC hwReading)) = tempC.
Proof.
  intros Hc. rewrite calPointC_tempK. split; [done|]. split.
  - split; simpl; apply to_uint16_range.
  - replace tempC with (tempC + 273 - 273) at 2 by lia.
    unfold celsiusToKelvin, int_add, CHIPTEMP_CELSIUS_ZERO.
    apply int_range_mod_inj; [apply to_int_range | |].
    + by replace (tempC + 273 - 273) with tempC by lia.
    + rewrite kelvinToCelsius_mod, <- Zminus_mod_idemp_l, to_uint16_mod,
        to_int_mod. by rewrite Zminus_mod_idemp_l.
Qed.

Lemma calPointC_round_trip_witness :
  _tempK (mkChipTempCalPointC (-40) 290) = 233 ∧
  kelvinToCelsius (_tempK (mkChipTempCalPointC (-40) 290)) = -40.
Proof.
  assert (int_range (-40)) as H by (unfold int_range; lia).
  destruct (calPointC_round_trip (-40) 290 H) as (H1 & _ & H3).
  split; [exact H1 | exact H3].
Defined.

(** X2: [celsiusToKelvin] is [c + 273] from absolute zero up to 32494; a
    Celsius value below absolute zero does not fail, it comes out as the
    Kelvin value [c + 65809], above 33040. *)
Theorem celsiusToKelvin_ranges (c : Z) :
  (-273 ≤ c ≤ 32494 → celsiusToKelvin c = c + 273) ∧
  (-32768 ≤ c < -273 →
   celsiusToKelvin c = c + 65809 ∧ 33041 ≤ celsiusToKelvin c ≤ 65535).
Proof.
  split; [apply celsiusToKelvin_no_wrap|].
  intros Hc. unfold celsiusToKelvin, int_add, CHIPTEMP_CELSIUS_ZERO.
  rewrite to_int_id by (unfold int_range; lia).
  unfold to_uint16, wrap_unsigned. change (2 ^ 16) with 65536.
  replace (c + 273) with (c + 65809 + (-1) * 65536) by lia.
  rewrite Z.mod_add, Z.mod_small by lia. lia.
Qed.

Lemma celsiusToKelvin_ranges_witness :
  celsiusToKelvin 27 = 300 ∧ celsiusToKelvin (-300) = 65509.
Proof.
  split.
  - refine (proj1 (celsiusToKelvin_ranges 27) _). lia.
  - refine (proj1 (proj2 (celsiusToKelvin_ranges (-300)) _)). lia.
Defined.

(** X3: [kelvinToCelsius] is [k - 273] for every Kelvin value that is a
    non-negative [int]; a [uint16_t] from 33041 up comes out negative, as
    [k - 65809]. *)
Theorem kelvinToCelsius_ranges (k : Z) :
  (0 ≤ k ≤ 32767 → kelvinToCelsius k = k - 273) ∧
  (33041 ≤ k ≤ 65535 →
   kelvinToCelsius k = k - 65809 ∧ kelvinToCelsius k < -273).
Proof.
  unfold kelvinToCelsius, int_sub, CHIPTEMP_CELSIUS_ZERO. split; intros Hk.
  - rewrite (to_int_id k) by (unfold int_range; lia).
    apply to_int_id. unfold int_range. lia.
  - assert (to_int k = k - 65536) as ->.
    { unfold to_int, wrap_signed.
      change (2 ^ (16 - 1)) with 32768. change (2 ^ 16) with 65536.
      replace (k + 32768) with (k - 32768 + 1 * 65536) by lia.
      rewrite Z.mod_add, Z.mod_small by lia. lia. }
    rewrite to_int_id by (unfold int_range; lia). lia.
Qed.

Lemma kelvinToCelsius_ranges_witness :
  kelvinToCelsius 300 = 27 ∧ kelvinToCelsius 65509 = -300.
Proof.
  split.
  - refine (proj1 (kelvinToCelsius_ranges 300) _). lia.
  - refine (proj1 (proj2 (kelvinToCelsius_ranges 65509) _)). lia.
Defined.

End ConversionRanges.

Section FahrenheitScale.

Lemma calPoint_eq (p q : ChipTempCalPointK) :
  _tempK p = _tempK q → _hwReading p = _hwReading q → p = q.
Proof. destruct p, q. simpl. congruence. Qed.

(** X4: for a Fahrenheit temperature from -461 (absolute zero) to 6585 no
    intermediate of the Fahrenheit constructor wraps: the stored Kelvin
    value is [(tempF - 32) * 5 / 9 + 273], truncated toward zero, it lies
    in [0, 3913], and it does not decrease when [tempF] grows. *)
Theorem calPointF_exact_monotone (tempF tempF' hw hw' : Z) :
  -461 ≤ tempF → tempF ≤ tempF' → tempF' ≤ 6585 →
  _tempK (mkChipTempCalPointF tempF hw) = ((tempF - 32) * 5) `quot` 9 + 273 ∧
  0 ≤ _tempK (mkChipTempCalPointF tempF hw) ∧
  _tempK (mkChipTempCalPointF tempF hw) ≤ _tempK (mkChipTempCalPointF tempF' hw') ∧
  _tempK (mkChipTempCalPointF tempF' hw') ≤ 3913.
Proof.
  intros Hlo Hle Hhi.
  destruct (calPointF_tempK_no_wrap tempF hw) as [E _]; [lia|].
  destruct (calPointF_tempK_no_wrap tempF' hw') as [E' _]; [lia|].
  pose proof (quot_bounds (-2465) 32765 ((tempF - 32) * 5) 9) as B.
  pose proof (quot_bounds (-2465) 32765 ((tempF' - 32) * 5) 9) as B'.
  change ((-2465) `quot` 9) with (-273) in B, B'.
  change (32765 `quot` 9) with 3640 in B, B'.
  specialize (B ltac:(lia) ltac:(lia)). specialize (B' ltac:(lia) ltac:(lia)).
  rewrite (to_uint16_id (((tempF - 32) * 5) `quot` 9 + 273)) in E
    by (unfold uint16; lia).
  rewrite (to_uint16_id (((tempF' - 32) * 5) `quot` 9 + 273)) in E'
    by (unfold uint16; lia).
  rewrite E, E'.
  assert (((tempF - 32) * 5) `quot` 9 ≤ ((tempF' - 32) * 5) `quot` 9)
    by (apply Z.quot_le_mono; lia).
  lia.
Qed.

Lemma calPointF_exact_monotone_witness :
  _tempK (mkChipTempCalPointF 32 300) = 273 ∧
  _tempK (mkChipTempCalPointF 32 300) ≤ _tempK (mkChipTempCalPointF 212 400).
Proof.
  destruct (calPointF_exact_monotone 32 212 300 400) as (H1 & _ & H3 & _);
    [lia | lia | lia |].
  split; [exact H1 | exact H3].
Defined.

(** X5: wherever a temperature is a whole number on both scales, the
    Fahrenheit and the Celsius constructors build the same point:
    [9 m + 32] degrees Fahrenheit and [5 m] degrees Celsius, for [m] from
    -54 to 728. *)
Theorem calPointF_agrees_with_calPointC (m hw : Z) :
  -54 ≤ m ≤ 728 →
  mkChipTempCalPointF (9 * m + 32) hw = mkChipTempCalPointC (5 * m) hw.
Proof.
  intros Hm. apply calPoint_eq; [|done].
  destruct (calPointF_tempK_no_wrap (9 * m + 32) hw) as [-> _]; [lia|].
  rewrite calPointC_tempK, celsiusToKelvin_no_wrap by lia.
  replace ((9 * m + 32 - 32) * 5) with (5 * m * 9) by lia.
  rewrite Z.quot_mul by lia.
  apply to_uint16_id. unfold uint16. lia.
Qed.

Lemma calPointF_agrees_with_calPointC_witness :
  mkChipTempCalPointF 212 400 = mkChipTempCalPointC 100 400.
Proof.
  refine (calPointF_agrees_with_calPointC 20 400 _). lia.
Defined.

(** X6: for a Celsius value from -6553 to 6553 no intermediate of
    [celsiusToFahrenheit] wraps: the result is [c * 5 / 9 + 32], truncated
    toward zero, it lies in [-3608, 3672], and it does not decrease when
    [c] grows. *)
Theorem celsiusToFahrenheit_exact_monotone (c c' : Z) :
  -6553 ≤ c → c ≤ c' → c' ≤ 6553 →
  celsiusToFahrenheit c = (c * 5) `quot` 9 + 32 ∧
  -3608 ≤ celsiusToFahrenheit c ∧
  celsiusToFahrenheit c ≤ celsiusToFahrenheit c' ∧
  celsiusToFahrenheit c' ≤ 3672.
Proof.
  intros Hlo Hle Hhi.
  destruct (celsiusToFahrenheit_no_wrap c) as [E B]; [lia|].
  destruct (celsiusToFahrenheit_no_wrap c') as [E' B']; [lia|].
  rewrite E, E'.
  assert ((c * 5) `quot` 9 ≤ (c' * 5) `quot` 9)
    by (apply Z.quot_le_mono; lia).
  lia.
Qed.

Lemma celsiusToFahrenheit_exact_monotone_witness :
  celsiusToFahrenheit 37 = (37 * 5) `quot` 9 + 32 ∧
  celsiusToFahrenheit 37 ≤ celsiusToFahrenheit 100.
Proof.
  destruct (celsiusToFahrenheit_exact_monotone 37 100) as (H1 & _ & H3 & _);
    [lia | lia | lia |].
  split; [exact H1 | exact H3].
Defined.

(** X7: converting a Celsius value with [celsiusToFahrenheit], building a
    Fahrenheit calibration point from the result and reading its Kelvin
    value back in Celsius gives [(c * 5 / 9) * 5 / 9]; for [c] from -6553
    to 6553 that is [c] only when [c] is 0. *)
Theorem celsius_fahrenheit_round_trip (c hw : Z) :
  -6553 ≤ c ≤ 6553 →
  kelvinToCelsius (_tempK (mkChipTempCalPointF (celsiusToFahrenheit c) hw))
  = (((c * 5) `quot` 9) * 5) `quot` 9 ∧
  (kelvinToCelsius (_tempK (mkChipTempCalPointF (celsiusToFahrenheit c) hw)) = c
   ↔ c = 0).
Proof.
  intros Hc.
  destruct (celsiusToFahrenheit_no_wrap c) as [E B]; [lia|].
  destruct (calPointF_tempK_no_wrap (celsiusToFahrenheit c) hw) as [E' B'];
    [rewrite E; lia|].
  rewrite E'. rewrite E in B' |- *.
  replace ((c * 5) `quot` 9 + 32 - 32) with ((c * 5) `quot` 9) in * by lia.
  set (q := (c * 5) `quot` 9) in *.
  rewrite kelvinToCelsius_to_uint16 by (unfold int_range; lia).
  replace ((q * 5) `quot` 9 + 273 - 273) with ((q * 5) `quot` 9) by lia.
  split; [done|].
  pose proof (quot_abs_le (c * 5) 9 ltac:(lia)) as Hq1.
  pose proof (Z.quot_rem' (c * 5) 9) as Hqr.
  pose proof (Z.rem_bound_abs (c * 5) 9 ltac:(lia)) as Hr.
  pose proof (Z.quot_rem' (q * 5) 9) as Hqr'.
  pose proof (Z.rem_bound_abs (q * 5) 9 ltac:(lia)) as Hr'.
  fold q in Hq1, Hqr.
  split.
  - intros Heq. rewrite Heq in Hqr'.
    assert (-2 ≤ c ≤ 2) as Hsmall by lia.
    assert (c = -2 ∨ c = -1 ∨ c = 0 ∨ c = 1 ∨ c = 2) as Hcases by lia.
    destruct Hcases as [->|[->|[->|[->| ->]]]]; [| |done| |];
      vm_compute in Heq; discriminate Heq.
  - intros ->. reflexivity.
Qed.

Lemma celsius_fahrenheit_round_trip_witness :
  kelvinToCelsius (_tempK (mkChipTempCalPointF (celsiusToFahrenheit 100) 400))
  = ((100 * 5) `quot` 9 * 5) `quot` 9.
Proof.
  refine (proj1 (celsius_fahrenheit_round_trip 100 400 _)). lia.
Defined.

End FahrenheitScale.

(** ** The shape of the calibration map *)

Section CalibrationShape.

Implicit Types (t : ChipTemperature).

(** A fraction [x / d] of [s], truncated, lies between 0 and [s]. *)
Lemma quot_scaled_between_pos x s d :
  0 < d → 0 ≤ x ≤ d → Z.min 0 s ≤ (x * s) `quot` d ≤ Z.max 0 s.
Proof.
  intros Hd Hx. destruct (Z_lt_le_dec s 0) as [Hs|Hs].
  - pose proof (quot_bounds (s * d) 0 (x * s) d Hd ltac:(nia)) as B.
    rewrite Z.quot_mul, Z.quot_0_l in B by lia. lia.
  - pose proof (quot_bounds 0 (s * d) (x * s) d Hd ltac:(nia)) as B.
    rewrite Z.quot_mul, Z.quot_0_l in B by lia. lia.
Qed.

Lemma quot_scaled_between x s d :
  d ≠ 0 → Z.min 0 d ≤ x ≤ Z.max 0 d →
  Z.min 0 s ≤ (x * s) `quot` d ≤ Z.max 0 s.
Proof.
  intros Hd Hx. destruct (Z_lt_le_dec d 0) as [Hneg|Hpos].
  - rewrite <- (Z.quot_opp_opp (x * s) d) by done.
    replace (- (x * s)) with ((- x) * s) by lia.
    apply quot_scaled_between_pos; lia.
  - apply quot_scaled_between_pos; lia.
Qed.

(** With a slope that is not negative the truncated quotient follows the
    order of the raw values. *)
Lemma quot_slope_monotone x x' s d :
  d ≠ 0 → 0 ≤ d * s → x ≤ x' → (x * s) `quot` d ≤ (x' * s) `quot` d.
Proof.
  intros Hd Hslope Hx. destruct (Z_lt_le_dec d 0) as [Hneg|Hpos].
  - rewrite <- (Z.quot_opp_opp (x * s) d), <- (Z.quot_opp_opp (x' * s) d)
      by done.
    apply Z.quot_le_mono; nia.
  - apply Z.quot_le_mono; nia.
Qed.

(** In the sensor's range nothing in [getK] wraps. *)
Lemma getK_sensor_range t :
  wf_point (_calPoint1 t) → wf_point (_calPoint2 t) →
  sensor_range (getRaw t) →
  sensor_range (_hwReading (_calPoint1 t)) →
  sensor_range (_hwReading (_calPoint2 t)) →
  _hwReading (_calPoint1 t) ≠ _hwReading (_calPoint2 t) →
  getK t = Returns (to_uint16 (interpolation_trunc t)).
Proof.
  intros W1 W2 Hraw S1 S2 Hne.
  pose proof (sensor_range_no_wrap t W1 W2 Hraw S1 S2).
  pose proof (sensor_range_quotient t W1 W2 Hraw S1 S2 Hne).
  apply getK_no_wrap; try done.
  - unfold long_range. lia.
  - destruct W1 as [W1 _]. unfold interpolation_trunc, long_range, uint16 in *.
    lia.
Qed.

(** X8: with hardware readings and raw averages in the sensor's range and
    a slope that is not negative, [getK] follows the order of the raw
    averages: of two trackers with the same calibration points, the one
    with the larger raw average has the larger interpolated value, and the
    larger result whenever both values fit [uint16_t]. *)
Theorem getK_monotone t t' :
  _calPoint1 t' = _calPoint1 t → _calPoint2 t' = _calPoint2 t →
  wf_point (_calPoint1 t) → wf_point (_calPoint2 t) →
  sensor_range (_hwReading (_calPoint1 t)) →
  sensor_range (_hwReading (_calPoint2 t)) →
  _hwReading (_calPoint1 t) ≠ _hwReading (_calPoint2 t) →
  0 ≤ (_hwReading (_calPoint2 t) - _hwReading (_calPoint1 t))
      * (_tempK (_calPoint2 t) - _tempK (_calPoint1 t)) →
  sensor_range (getRaw t) → sensor_range (getRaw t') →
  getRaw t ≤ getRaw t' →
  getK t = Returns (to_uint16 (interpolation_trunc t)) ∧
  getK t' = Returns (to_uint16 (interpolation_trunc t')) ∧
  interpolation_trunc t ≤ interpolation_trunc t' ∧
  (0 ≤ interpolation_trunc t → interpolation_trunc t' ≤ 65535 →
   ∃ v v', getK t = Returns v ∧ getK t' = Returns v' ∧ v ≤ v').
Proof.
  intros E1 E2 W1 W2 S1 S2 Hne Hslope Hraw Hraw' Hle.
  assert (getK t = Returns (to_uint16 (interpolation_trunc t))) as Hk
    by by apply getK_sensor_range.
  assert (getK t' = Returns (to_uint16 (interpolation_trunc t'))) as Hk'
    by (apply getK_sensor_range; rewrite ?E1, ?E2; done).
  assert (interpolation_trunc t ≤ interpolation_trunc t') as Hmono.
  { unfold interpolation_trunc, getK_quotient. rewrite E1, E2.
    apply Z.add_le_mono_r, quot_slope_monotone; lia. }
  repeat split; try done.
  intros Hlo Hhi. exists (interpolation_trunc t), (interpolation_trunc t').
  rewrite Hk, Hk', !to_uint16_id by (unfold uint16; lia). done.
Qed.

Lemma getK_monotone_witness :
  ∃ v v',
    getK (Tracker (CalPoint 273 300) (CalPoint 373 400)
                  [310; 310; 310; 310; 310] 5) = Returns v ∧
    getK (Tracker (CalPoint 273 300) (CalPoint 373 400)
                  [350; 350; 350; 350; 350] 5) = Returns v' ∧
    v ≤ v'.
Proof.
  assert (wf_point (CalPoint 273 300)) as W1
    by (unfold wf_point, uint16; simpl; lia).
  assert (wf_point (CalPoint 373 400)) as W2
    by (unfold wf_point, uint16; simpl; lia).
  assert (sensor_range 300) as S1 by (unfold sensor_range; lia).
  assert (sensor_range 400) as S2 by (unfold sensor_range; lia).
  assert (sensor_range 310) as R by (unfold sensor_range; lia).
  assert (sensor_range 350) as R' by (unfold sensor_range; lia).
  destruct (getK_monotone
              (Tracker (CalPoint 273 300) (CalPoint 373 400)
                       [310; 310; 310; 310; 310] 5)
              (Tracker (CalPoint 273 300) (CalPoint 373 400)
                       [350; 350; 350; 350; 350] 5)
              eq_refl eq_refl W1 W2 S1 S2)
    as (_ & _ & _ & H); [simpl; lia | simpl; lia | exact R | exact R' | | ].
  - change (310 ≤ 350). lia.
  - apply H.
    + change (0 ≤ 283). lia.
    + change (323 ≤ 65535). lia.
Defined.

(** X9: with hardware readings in the sensor's range, a raw average that
    lies between the hardware readings of the two points gives a result
    that lies between their temperatures, whichever way the points are
    ordered: between the points the map interpolates and never leaves the
    interval. *)
Theorem getK_between_points t :
  wf_point (_calPoint1 t) → wf_point (_calPoint2 t) →
  sensor_range (_hwReading (_calPoint1 t)) →
  sensor_range (_hwReading (_calPoint2 t)) →
  _hwReading (_calPoint1 t) ≠ _hwReading (_calPoint2 t) →
  Z.min (_hwReading (_calPoint1 t)) (_hwReading (_calPoint2 t)) ≤ getRaw t →
  getRaw t ≤ Z.max (_hwReading (_calPoint1 t)) (_hwReading (_calPoint2 t)) →
  ∃ v, getK t = Returns v ∧
       Z.min (_tempK (_calPoint1 t)) (_tempK (_calPoint2 t)) ≤ v ∧
       v ≤ Z.max (_tempK (_calPoint1 t)) (_tempK (_calPoint2 t)).
Proof.
  intros W1 W2 S1 S2 Hne Hlo Hhi.
  assert (sensor_range (getRaw t)) as Hraw by (unfold sensor_range in *; lia).
  exists (interpolation_trunc t).
  pose proof (quot_scaled_between
                (getRaw t - _hwReading (_calPoint1 t))
                (_tempK (_calPoint2 t) - _tempK (_calPoint1 t))
                (_hwReading (_calPoint2 t) - _hwReading (_calPoint1 t))
                ltac:(lia) ltac:(lia)) as Hq.
  fold (getK_quotient t) in Hq.
  assert (Z.min (_tempK (_calPoint1 t)) (_tempK (_calPoint2 t))
          ≤ interpolation_trunc t
          ≤ Z.max (_tempK (_calPoint1 t)) (_tempK (_calPoint2 t))) as Hb
    by (unfold interpolation_trunc; lia).
  split; [|lia].
  rewrite getK_sensor_range by done. f_equal. apply to_uint16_id.
  destruct W1 as [W1 _], W2 as [W2 _]. unfold uint16 in *. lia.
Qed.

Lemma getK_between_points_witness :
  ∃ v, getK (Tracker (CalPoint 373 400) (CalPoint 273 300)
                     [333; 333; 333; 333; 333] 5) = Returns v ∧
       273 ≤ v ∧ v ≤ 373.
Proof.
  assert (wf_point (CalPoint 273 300)) as W1
    by (unfold wf_point, uint16; simpl; lia).
  assert (wf_point (CalPoint 373 400)) as W2
    by (unfold wf_point, uint16; simpl; lia).
  assert (sensor_range 300) as S1 by (unfold sensor_range; lia).
  assert (sensor_range 400) as S2 by (unfold sensor_range; lia).
  refine (getK_between_points
            (Tracker (CalPoint 373 400) (CalPoint 273 300)
                     [333; 333; 333; 333; 333] 5) W2 W1 S2 S1 _ _ _).
  - simpl. lia.
  - change (Z.min 400 300 ≤ 333). lia.
  - change (333 ≤ Z.max 400 300). lia.
Defined.

(** X10: two calibration points with the same temperature and distinct
    hardware readings make [getK] constant: it returns that temperature
    for every raw average. *)
Theorem getK_flat t :
  wf_point (_calPoint1 t) → wf_point (_calPoint2 t) →
  _hwReading (_calPoint1 t) ≠ _hwReading (_calPoint2 t) →
  _tempK (_calPoint1 t) = _tempK (_calPoint2 t) →
  getK t = Returns (_tempK (_calPoint1 t)).
Proof.
  intros W1 W2 Hne Heq.
  assert (getK_quotient t = 0) as Hq.
  { unfold getK_quotient. rewrite Heq, Z.sub_diag, Z.mul_0_r.
    apply Z.quot_0_l. lia. }
  rewrite getK_no_wrap; try done.
  - unfold interpolation_trunc. rewrite Hq. simpl. f_equal.
    apply to_uint16_id, W1.
  - rewrite Heq, Z.sub_diag, Z.mul_0_r. unfold long_range. lia.
  - unfold interpolation_trunc. rewrite Hq. apply uint16_long, W1.
Qed.

Lemma getK_flat_witness :
  getK (Tracker (CalPoint 300 310) (CalPoint 300 65535)
                [1023; 0; 7; 512; 90] 9) = Returns 300.
Proof.
  refine (getK_flat (Tracker (CalPoint 300 310) (CalPoint 300 65535)
                             [1023; 0; 7; 512; 90] 9) _ _ _ _).
  - unfold wf_point, uint16. simpl. lia.
  - unfold wf_point, uint16. simpl. lia.
  - simpl. lia.
  - reflexivity.
Defined.

End CalibrationShape.

Section CelsiusCalibration.

Implicit Types (t : ChipTemperature).

(** X11: a tracker calibrated with two Celsius points interpolates the
    Celsius values: with readings in the sensor's range and Celsius values
    from -273 to 32494, when
    [(raw - hw1) * (c2 - c1) / (hw2 - hw1) + c1], truncated, is such a value
    [c] too, [getK] returns [c + 273] and [kelvinToCelsius] of it is [c]. *)
Theorem getK_celsius_points t (c1 c2 hw1 hw2 : Z) :
  _calPoint1 t = mkChipTempCalPointC c1 hw1 →
  _calPoint2 t = mkChipTempCalPointC c2 hw2 →
  -273 ≤ c1 ≤ 32494 → -273 ≤ c2 ≤ 32494 →
  sensor_range hw1 → sensor_range hw2 → hw1 ≠ hw2 →
  sensor_range (getRaw t) →
  -273 ≤ ((getRaw t - hw1) * (c2 - c1)) `quot` (hw2 - hw1) + c1 ≤ 32494 →
  getK t
  = Returns (((getRaw t - hw1) * (c2 - c1)) `quot` (hw2 - hw1) + c1 + 273) ∧
  kelvinToCelsius
    (((getRaw t - hw1) * (c2 - c1)) `quot` (hw2 - hw1) + c1 + 273)
  = ((getRaw t - hw1) * (c2 - c1)) `quot` (hw2 - hw1) + c1.
Proof.
  intros P1 P2 C1 C2 S1 S2 Hne Hraw Hv.
  assert (_tempK (_calPoint1 t) = c1 + 273) as T1
    by (rewrite P1, calPointC_tempK; by apply celsiusToKelvin_no_wrap).
  assert (_tempK (_calPoint2 t) = c2 + 273) as T2
    by (rewrite P2, calPointC_tempK; by apply celsiusToKelvin_no_wrap).
  assert (_hwReading (_calPoint1 t) = hw1) as H1.
  { rewrite P1. simpl. apply to_uint16_id.
    unfold sensor_range, uint16 in *. lia. }
  assert (_hwReading (_calPoint2 t) = hw2) as H2.
  { rewrite P2. simpl. apply to_uint16_id.
    unfold sensor_range, uint16 in *. lia. }
  assert (interpolation_trunc t
          = ((getRaw t - hw1) * (c2 - c1)) `quot` (hw2 - hw1) + c1 + 273) as Ht.
  { unfold interpolation_trunc, getK_quotient. rewrite T1, T2, H1, H2.
    replace (c2 + 273 - (c1 + 273)) with (c2 - c1) by lia. lia. }
  split.
  - rewrite getK_sensor_range.
    + rewrite Ht. f_equal. apply to_uint16_id. unfold uint16. lia.
    + unfold wf_point, uint16. rewrite T1, H1. unfold sensor_range in S1. lia.
    + unfold wf_point, uint16. rewrite T2, H2. unfold sensor_range in S2. lia.
    + done.
    + by rewrite H1.
    + by rewrite H2.
    + by rewrite H1, H2.
  - set (c := ((getRaw t - hw1) * (c2 - c1)) `quot` (hw2 - hw1) + c1) in *.
    unfold kelvinToCelsius, int_sub, CHIPTEMP_CELSIUS_ZERO.
    rewrite (to_int_id (c + 273)) by (unfold int_range; lia).
    rewrite to_int_id by (unfold int_range; lia). lia.
Qed.

Lemma getK_celsius_points_witness :
  getK (Tracker (mkChipTempCalPointC 0 300) (mkChipTempCalPointC 100 400)
                [350; 350; 350; 350; 350] 5) = Returns 323 ∧
  kelvinToCelsius 323 = 50.
Proof.
  refine (getK_celsius_points
            (Tracker (mkChipTempCalPointC 0 300) (mkChipTempCalPointC 100 400)
                     [350; 350; 350; 350; 350] 5)
            0 100 300 400 eq_refl eq_refl _ _ _ _ _ _ _).
  - lia.
  - lia.
  - unfold sensor_range. lia.
  - unfold sensor_range. lia.
  - lia.
  - change (sensor_range 350). unfold sensor_range. lia.
  - change (-273 ≤ 50 ≤ 32494). lia.
Defined.

End CelsiusCalibration.

(** ** The registers across a call *)

Section AcquisitionRegisters.

Implicit Types (s : ADC.state) (fuel d : nat) (r : Z).

Lemma start_conversion_from s d r rest :
  ADC.converting s = None → ADC.upcoming s = (d, r) :: rest →
  ADC.write_ADCSRA (Z.lor (ADC.ADCSRA s) (ADC._BV ADC.ADSC)) s
  = Some (tt, ADC.log ADC.ConversionStarted
                {| ADC.ADMUX := ADC.ADMUX s;
                   ADC.ADCSRA :=
                     Z.setbit
                       (Z.clearbit
                          (to_uint8 (Z.lor (ADC.ADCSRA s) (ADC._BV ADC.ADSC)))
                          ADC.ADIF)
                       ADC.ADSC;
                   ADC.ADCSRB := ADC.ADCSRB s; ADC.ADCL := ADC.ADCL s;
                   ADC.ADCH := ADC.ADCH s; ADC.converting := Some (d, r);
                   ADC.upcoming := rest; ADC.latched := ADC.latched s;
                   ADC.trace := ADC.trace s |}).
Proof.
  intros Hc Hu. unfold ADC.write_ADCSRA. rewrite Hc, Hu.
  assert (Z.testbit (Z.lor (ADC.ADCSRA s) (ADC._BV ADC.ADSC)) ADC.ADSC = true)
    as -> by (rewrite Z.lor_spec; apply orb_true_r).
  assert (Z.testbit (ADC.ADCSRA s) ADC.ADIF
          && negb (Z.testbit (Z.lor (ADC.ADCSRA s) (ADC._BV ADC.ADSC)) ADC.ADIF)
          = false) as ->; [|reflexivity].
  rewrite Z.lor_spec. by destruct (Z.testbit (ADC.ADCSRA s) ADC.ADIF).
Qed.

(** One conversion, whatever the state of the latch. *)
Lemma conversion_step_from {A} (K : Z → Z → ADC.HW A) fuel s d r rest :
  ADC.converting s = None → ADC.upcoming s = (d, r) :: rest →
  Z.testbit (ADC.ADMUX s) ADC.ADLAR = false →
  (d + 2 ≤ fuel)%nat →
  (a ← ADC.read_ADCSRA;
   ADC.write_ADCSRA (Z.lor a (ADC._BV ADC.ADSC));;
   ADC.poll_wait fuel;;
   low ← ADC.read_ADCL;
   high ← ADC.read_ADCH;
   K low high) s
  = K (if ADC.latched s then ADC.ADCL s else to_uint8 r)
      (if ADC.latched s then ADC.ADCH s else to_uint8 (Z.shiftr r 8))
      (after_conversion_from r rest s).
Proof.
  intros Hc Hu Hadlar Hf.
  unfold mbind, hw_bind.
  unfold ADC.bind at 1, ADC.read_ADCSRA at 1, ADC.advance. rewrite Hc.
  unfold ADC.bind at 1. rewrite (start_conversion_from s d r rest) by done.
  unfold ADC.bind at 1.
  erewrite poll_wait_complete; [| reflexivity | apply Z.setbit_eq; done | done].
  unfold ADC.bind at 1, ADC.read_ADCL at 1.
  unfold ADC.bind at 1, ADC.read_ADCH at 1.
  cbn [ADC.complete ADC.log ADC.ADMUX ADC.ADCSRA ADC.ADCSRB ADC.ADCL ADC.ADCH
       ADC.converting ADC.upcoming ADC.latched ADC.trace].
  rewrite Hadlar. f_equal.
  unfold after_conversion_from, ADC.log.
  cbn [ADC.ADMUX ADC.ADCSRA ADC.ADCSRB ADC.ADCL ADC.ADCH
       ADC.converting ADC.upcoming ADC.latched ADC.trace].
  f_equal. by rewrite <- !app_assoc.
Qed.

(** A whole call from a converter that is not converting. *)
Lemma chipTemperatureReadRaw_run s fuel d1 d2 r1 r2 rest :
  ADC.converting s = None →
  ADC.upcoming s = (d1, r1) :: (d2, r2) :: rest →
  sensor_range r2 →
  (d1 + 2 ≤ fuel)%nat → (d2 + 2 ≤ fuel)%nat →
  chipTemperatureReadRaw fuel s = Some (r2, after_read r1 (d2, r2) rest s).
Proof.
  intros Hc Hu Hr2 Hf1 Hf2.
  unfold chipTemperatureReadRaw.
  unfold mbind at 1, hw_bind at 1, ADC.bind at 1, ADC.write_ADMUX at 1.
  unfold mbind at 1, hw_bind at 1, ADC.bind at 1, ADC.read_ADCSRB at 1.
  unfold mbind at 1, hw_bind at 1, ADC.bind at 1, ADC.write_ADCSRB at 1.
  cbn [ADC.ADMUX ADC.ADCSRA ADC.ADCSRB ADC.ADCL ADC.ADCH
       ADC.converting ADC.upcoming ADC.latched ADC.trace].
  change (ADC.State _ _ _ _ _ _ _ _ _) with (after_setup s).
  rewrite (conversion_step_from _ fuel (after_setup s) d1 r1 ((d2, r2) :: rest));
    [|done|done|done|done].
  unfold mbind at 1, hw_bind at 1, ADC.bind at 1, ADC.delayMicroseconds at 1.
  set (s2 := ADC.log _ _).
  assert (adc_idle s2) as Hidle2.
  { unfold adc_idle, s2, ADC.log, after_conversion_from,
      adcsra_after_conversion.
    cbn [ADC.ADCSRA ADC.converting ADC.latched].
    repeat split. rewrite Z.setbit_neq by done. apply Z.clearbit_eq. }
  rewrite (conversion_step _ fuel s2 d2 r2 rest); [|done|done|done|done].
  cbv beta. unfold mret, hw_ret, ADC.ret.
  change (Z.lor (to_int _) _)
    with (assemble (to_uint8 (Z.shiftr r2 8)) (to_uint8 r2)).
  by rewrite assemble_result.
Qed.

Lemma after_read_idle r1 second rest s : adc_idle (after_read r1 second rest s).
Proof. apply after_conversion_idle. Qed.

Lemma testbit_to_uint8 x i : i < 8 → Z.testbit (to_uint8 x) i = Z.testbit x i.
Proof. intros Hi. unfold to_uint8, wrap_unsigned. by apply Z.mod_pow2_bits_low. Qed.

(** Across a conversion [ADCSRA] keeps its bits, but for [ADSC], which
    ends clear, and [ADIF], which ends set. *)
Lemma adcsra_after_conversion_bits a i :
  0 ≤ i < 8 →
  Z.testbit (adcsra_after_conversion a) i
  = (i =? ADC.ADIF) || (Z.testbit a i && negb (i =? ADC.ADSC)).
Proof.
  intros Hi. unfold adcsra_after_conversion.
  rewrite Z.setbit_eqb, Z.clearbit_eqb, Z.setbit_eqb, Z.clearbit_eqb by done.
  rewrite testbit_to_uint8, Z.lor_spec by lia.
  change (ADC._BV ADC.ADSC) with (2 ^ 6). unfold ADC.ADSC, ADC.ADIF.
  rewrite (Z.eqb_sym 4 i), (Z.eqb_sym 6 i).
  destruct (Z.eqb_spec i 4) as [->|H4]; [done|].
  destruct (Z.eqb_spec i 6) as [->|H6].
  - simpl. by rewrite !andb_false_r.
  - rewrite Z.pow2_bits_false by lia. simpl.
    by rewrite orb_false_r, !andb_true_r.
Qed.

(** X12: a call from a converter at rest leaves [ADMUX] at [0xC7]
    (reference bits set, right-adjusted result, channel bits 00111), sets
    [MUX5] in [ADCSRB] and keeps its other bits, leaves [ADCSRA] with the
    conversion-complete flag [ADIF] set and every other bit as it was,
    [ADSC] clear; the data register holds the two bytes of the value
    returned. *)
Theorem chipTemperatureReadRaw_registers s fuel d1 d2 r1 r2 rest :
  adc_idle s →
  ADC.upcoming s = (d1, r1) :: (d2, r2) :: rest →
  sensor_range r2 →
  (d1 + 2 ≤ fuel)%nat → (d2 + 2 ≤ fuel)%nat →
  ∃ v s',
    chipTemperatureReadRaw fuel s = Some (v, s') ∧
    ADC.ADMUX s' = 199 ∧
    Z.testbit (ADC.ADCSRB s') ADC.MUX5 = true ∧
    (∀ i, 0 ≤ i < 8 → i ≠ ADC.MUX5 →
          Z.testbit (ADC.ADCSRB s') i = Z.testbit (ADC.ADCSRB s) i) ∧
    Z.testbit (ADC.ADCSRA s') ADC.ADIF = true ∧
    Z.testbit (ADC.ADCSRA s') ADC.ADSC = false ∧
    (∀ i, 0 ≤ i < 8 → i ≠ ADC.ADIF →
          Z.testbit (ADC.ADCSRA s') i = Z.testbit (ADC.ADCSRA s) i) ∧
    ADC.ADCL s' = v `mod` 256 ∧ ADC.ADCH s' = v `div` 256.
Proof.
  intros (Hc & Hb & Hl) Hu Hr2 Hf1 Hf2.
  exists r2, (after_read r1 (d2, r2) rest s).
  split; [by apply (chipTemperatureReadRaw_run s fuel d1 d2 r1 r2 rest)|].
  unfold after_read, after_conversion, ADC.log, after_conversion_from,
    after_setup.
  cbn [ADC.ADMUX ADC.ADCSRA ADC.ADCSRB ADC.ADCL ADC.ADCH
       ADC.converting ADC.upcoming ADC.latched ADC.trace snd].
  split; [reflexivity|].
  split; [|split; [|split; [|split; [|split; [|split]]]]].
  - rewrite testbit_to_uint8, Z.lor_spec by (unfold ADC.MUX5; lia).
    apply orb_true_r.
  - intros i Hi Hne. rewrite testbit_to_uint8, Z.lor_spec by lia.
    change (ADC._BV ADC.MUX5) with (2 ^ 5).
    rewrite Z.pow2_bits_false by (unfold ADC.MUX5 in Hne; lia).
    apply orb_false_r.
  - rewrite adcsra_after_conversion_bits by (unfold ADC.ADIF; lia).
    reflexivity.
  - rewrite adcsra_after_conversion_bits by (unfold ADC.ADSC; lia).
    change (ADC.ADSC =? ADC.ADIF) with false.
    change (ADC.ADSC =? ADC.ADSC) with true.
    simpl. apply andb_false_r.
  - intros i Hi Hne. rewrite !adcsra_after_conversion_bits by done.
    rewrite (proj2 (Z.eqb_neq i ADC.ADIF)) by done. simpl.
    destruct (Z.eqb_spec i ADC.ADSC) as [->|Hne6].
    + rewrite Hb. done.
    + simpl. by rewrite !andb_true_r.
  - reflexivity.
  - unfold to_uint8, wrap_unsigned. rewrite Z.shiftr_div_pow2 by lia.
    change (2 ^ 8) with 256. apply Z.mod_small.
    unfold sensor_range in Hr2.
    pose proof (Z.div_le_upper_bound r2 256 4 ltac:(lia) ltac:(lia)).
    pose proof (Z.div_pos r2 256 ltac:(lia) ltac:(lia)). lia.
Qed.

Lemma chipTemperatureReadRaw_registers_witness :
  ∃ v s',
    chipTemperatureReadRaw 5
      (ADC.State 64 135 1 0 0 None [(3%nat, 300); (2%nat, 301)] false [])
    = Some (v, s') ∧
    ADC.ADMUX s' = 199 ∧ Z.testbit (ADC.ADCSRB s') ADC.MUX5 = true ∧
    Z.testbit (ADC.ADCSRA s') ADC.ADIF = true.
Proof.
  destruct (chipTemperatureReadRaw_registers
              (ADC.State 64 135 1 0 0 None [(3%nat, 300); (2%nat, 301)] false [])
              5 3 2 300 301 [])
    as (v & s' & Hrun & Hmux & Hb & _ & Hif & _).
  - unfold adc_idle. repeat split; reflexivity.
  - reflexivity.
  - unfold sensor_range. lia.
  - lia.
  - lia.
  - exists v, s'. split; [exact Hrun|]. split; [exact Hmux|].
    split; [exact Hb | exact Hif].
Defined.

End AcquisitionRegisters.

Section AcquisitionSequences.

Implicit Types (s : ADC.state) (fuel d : nat) (r : Z).

(** X13: two calls in a row from a converter at rest use up four
    conversions and return the second and the fourth result; the first and
    the third are read and dropped, and the converter is at rest again. *)
Theorem chipTemperatureReadRaw_twice_results
    s fuel d1 d2 d3 d4 r1 r2 r3 r4 rest :
  adc_idle s →
  ADC.upcoming s = (d1, r1) :: (d2, r2) :: (d3, r3) :: (d4, r4) :: rest →
  sensor_range r2 → sensor_range r4 →
  (d1 + 2 ≤ fuel)%nat → (d2 + 2 ≤ fuel)%nat →
  (d3 + 2 ≤ fuel)%nat → (d4 + 2 ≤ fuel)%nat →
  ∃ s', chipTemperatureReadRaw_twice fuel s = Some ((r2, r4), s') ∧
        adc_idle s' ∧ ADC.upcoming s' = rest.
Proof.
  intros (Hc & _ & _) Hu Hr2 Hr4 Hf1 Hf2 Hf3 Hf4.
  exists (after_read r3 (d4, r4) rest
            (after_read r1 (d2, r2) ((d3, r3) :: (d4, r4) :: rest) s)).
  split; [|split; [apply after_read_idle | reflexivity]].
  unfold chipTemperatureReadRaw_twice.
  unfold mbind at 1, hw_bind at 1, ADC.bind at 1.
  rewrite (chipTemperatureReadRaw_run s fuel d1 d2 r1 r2
             ((d3, r3) :: (d4, r4) :: rest)) by done.
  unfold mbind at 1, hw_bind at 1, ADC.bind at 1.
  rewrite (chipTemperatureReadRaw_run _ fuel d3 d4 r3 r4 rest) by done.
  reflexivity.
Qed.

Lemma chipTemperatureReadRaw_twice_results_witness :
  ∃ s',
    chipTemperatureReadRaw_twice 6
      (ADC.State 0 135 0 0 0 None
                 [(3%nat, 300); (2%nat, 301); (4%nat, 299); (1%nat, 302)]
                 false [])
    = Some ((301, 302), s') ∧ adc_idle s'.
Proof.
  destruct (chipTemperatureReadRaw_twice_results
              (ADC.State 0 135 0 0 0 None
                 [(3%nat, 300); (2%nat, 301); (4%nat, 299); (1%nat, 302)]
                 false [])
              6 3 2 4 1 300 301 299 302 [])
    as (s' & Hrun & Hidle & _).
  - unfold adc_idle. repeat split; reflexivity.
  - reflexivity.
  - unfold sensor_range. lia.
  - unfold sensor_range. lia.
  - lia.
  - lia.
  - lia.
  - lia.
  - exists s'. split; [exact Hrun | exact Hidle].
Defined.

(** X14: a call that finds the data register latched, [ADCL] having been
    read and [ADCH] not, still returns the result of its second conversion:
    the first pair of reads returns the old content of the register and
    releases the latch. *)
Theorem chipTemperatureReadRaw_releases_latch s fuel d1 d2 r1 r2 rest :
  ADC.converting s = None → ADC.latched s = true →
  ADC.upcoming s = (d1, r1) :: (d2, r2) :: rest →
  sensor_range r2 →
  (d1 + 2 ≤ fuel)%nat → (d2 + 2 ≤ fuel)%nat →
  ∃ s',
    chipTemperatureReadRaw fuel s = Some (r2, s') ∧
    adc_idle s' ∧
    ADC.trace s'
    = ADC.trace s ++
      [ADC.ConversionStarted; ADC.ConversionComplete r1;
       ADC.ReadADCL (ADC.ADCL s); ADC.ReadADCH (ADC.ADCH s);
       ADC.DelayMicroseconds 2;
       ADC.ConversionStarted; ADC.ConversionComplete r2;
       ADC.ReadADCL (to_uint8 r2); ADC.ReadADCH (to_uint8 (Z.shiftr r2 8))].
Proof.
  intros Hc Hl Hu Hr2 Hf1 Hf2.
  exists (after_read r1 (d2, r2) rest s).
  split; [by apply (chipTemperatureReadRaw_run s fuel d1 d2 r1 r2 rest)|].
  split; [apply after_read_idle|].
  unfold after_read, after_conversion, ADC.log, after_conversion_from,
    after_setup.
  cbn [ADC.ADCL ADC.ADCH ADC.latched ADC.trace snd].
  rewrite Hl. by rewrite <- !app_assoc.
Qed.

Lemma chipTemperatureReadRaw_releases_latch_witness :
  ∃ s',
    chipTemperatureReadRaw 5
      (ADC.State 0 135 0 17 2 None [(3%nat, 300); (2%nat, 301)] true [])
    = Some (301, s') ∧ adc_idle s'.
Proof.
  destruct (chipTemperatureReadRaw_releases_latch
              (ADC.State 0 135 0 17 2 None [(3%nat, 300); (2%nat, 301)] true [])
              5 3 2 300 301 [])
    as (s' & Hrun & Hidle & _).
  - reflexivity.
  - reflexivity.
  - reflexivity.
  - unfold sensor_range. lia.
  - lia.
  - lia.
  - exists s'. split; [exact Hrun | exact Hidle].
Defined.

(** A multiple of [2^8] and a byte share no bit. *)
Lemma land_high_low k low : 0 ≤ low < 256 → Z.land (k * 2 ^ 8) low = 0.
Proof.
  intros Hl. apply Z.bits_inj'. intros n Hn.
  rewrite Z.land_spec, Z.bits_0.
  destruct (Z_lt_le_dec n 8) as [Hlt|Hge].
  - by rewrite Z.mul_pow2_bits_low.
  - assert (Z.testbit low n = false) as ->; [|apply andb_false_r].
    apply Z.testbit_false; [done|].
    assert (2 ^ 8 ≤ 2 ^ n) by (apply Z.pow_le_mono_r; lia).
    rewrite Z.div_small; [done|]. change (2 ^ 8) with 256 in *. lia.
Qed.

(** X15: on any two bytes the return expression [(high << 8) | low] is
    [256 * high + low] reduced to the 16-bit [int]: that number itself
    while [high] is below 128, and 65536 less, a negative value, from 128
    on. *)
Theorem assemble_bytes (high low : Z) :
  0 ≤ high < 256 → 0 ≤ low < 256 →
  assemble high low = to_int (256 * high + low) ∧
  (high < 128 → assemble high low = 256 * high + low) ∧
  (128 ≤ high → assemble high low = 256 * high + low - 65536).
Proof.
  intros Hh Hl.
  assert (∀ k, Z.lor (k * 2 ^ 8) low = k * 2 ^ 8 + low) as Hlor.
  { intros k. pose proof (land_high_low k low Hl) as Hland.
    by rewrite <- Z.lxor_lor, <- Z.add_nocarry_lxor. }
  assert (∀ n, 32768 ≤ n < 65536 → to_int n = n - 65536) as Hneg.
  { intros n Hn. unfold to_int, wrap_signed.
    change (2 ^ (16 - 1)) with 32768. change (2 ^ 16) with 65536.
    replace (n + 32768) with (n - 32768 + 1 * 65536) by lia.
    rewrite Z.mod_add, Z.mod_small by lia. lia. }
  unfold assemble, to_uint8, wrap_unsigned.
  rewrite !Z.mod_small, Z.shiftl_mul_pow2 by (change (2 ^ 8) with 256; lia).
  destruct (Z_lt_le_dec high 128) as [Hlt|Hge].
  - rewrite (to_int_id (high * 2 ^ 8)), Hlor
      by (unfold int_range; change (2 ^ 8) with 256; lia).
    change (2 ^ 8) with 256.
    rewrite to_int_id by (unfold int_range; lia).
    repeat split; lia.
  - rewrite (Hneg (high * 2 ^ 8)) by (change (2 ^ 8) with 256; lia).
    replace (high * 2 ^ 8 - 65536) with ((high - 256) * 2 ^ 8)
      by (change (2 ^ 8) with 256; lia).
    rewrite Hlor. change (2 ^ 8) with 256.
    rewrite Hneg by lia.
    repeat split; lia.
Qed.

Lemma assemble_bytes_witness :
  assemble 1 45 = 301 ∧ assemble 200 7 = -14329.
Proof.
  split.
  - refine (proj1 (proj2 (assemble_bytes 1 45 _ _)) _); lia.
  - refine (proj2 (proj2 (assemble_bytes 200 7 _ _)) _); lia.
Defined.

End AcquisitionSequences.

(** ** Calibration against offsets *)

Section CalibrationOffsets.

Implicit Types (t : ChipTemperature).

(** X16: calibration points that lie on the diagonal, each temperature
    equal to its hardware reading, make [getK] the identity on the sensor's
    range: it returns the raw average, whichever two distinct points of the
    diagonal are given. *)
Theorem getK_diagonal_points t :
  _tempK (_calPoint1 t) = _hwReading (_calPoint1 t) →
  _tempK (_calPoint2 t) = _hwReading (_calPoint2 t) →
  sensor_range (_hwReading (_calPoint1 t)) →
  sensor_range (_hwReading (_calPoint2 t)) →
  _hwReading (_calPoint1 t) ≠ _hwReading (_calPoint2 t) →
  sensor_range (getRaw t) →
  getK t = Returns (getRaw t).
Proof.
  intros D1 D2 S1 S2 Hne Hraw.
  assert (wf_point (_calPoint1 t)) as W1
    by (unfold wf_point, uint16; rewrite D1; unfold sensor_range in S1; lia).
  assert (wf_point (_calPoint2 t)) as W2
    by (unfold wf_point, uint16; rewrite D2; unfold sensor_range in S2; lia).
  rewrite getK_sensor_range by done.
  unfold interpolation_trunc, getK_quotient. rewrite D1, D2.
  rewrite Z.quot_mul by lia. f_equal.
  replace (getRaw t - _hwReading (_calPoint1 t) + _hwReading (_calPoint1 t))
    with (getRaw t) by lia.
  apply to_uint16_id, getRaw_uint16.
Qed.

Lemma getK_diagonal_points_witness :
  getK (Tracker (CalPoint 400 400) (CalPoint 250 250)
                [310; 310; 310; 310; 310] 5) = Returns 310.
Proof.
  refine (getK_diagonal_points
            (Tracker (CalPoint 400 400) (CalPoint 250 250)
                     [310; 310; 310; 310; 310] 5) eq_refl eq_refl _ _ _ _).
  - simpl. unfold sensor_range. lia.
  - simpl. unfold sensor_range. lia.
  - simpl. lia.
  - change (sensor_range 310). unfold sensor_range. lia.
Defined.

(** X17: an interpolated value below zero is not refused: with readings in
    the sensor's range, a value [v] from -65536 up to -1 comes back as
    [v + 65536]. *)
Theorem getK_below_zero t :
  wf_point (_calPoint1 t) → wf_point (_calPoint2 t) →
  sensor_range (getRaw t) →
  sensor_range (_hwReading (_calPoint1 t)) →
  sensor_range (_hwReading (_calPoint2 t)) →
  _hwReading (_calPoint1 t) ≠ _hwReading (_calPoint2 t) →
  -65536 ≤ interpolation_trunc t < 0 →
  getK t = Returns (interpolation_trunc t + 65536).
Proof.
  intros W1 W2 Hraw S1 S2 Hne Hv.
  rewrite getK_sensor_range by done. f_equal.
  unfold to_uint16, wrap_unsigned. change (2 ^ 16) with 65536.
  replace (interpolation_trunc t)
    with (interpolation_trunc t + 65536 + (-1) * 65536) at 1 by lia.
  rewrite Z.mod_add by lia. apply Z.mod_small. lia.
Qed.

Lemma getK_below_zero_witness :
  getK (Tracker (CalPoint 273 300) (CalPoint 373 400) [0; 0; 0; 0; 0] 0)
  = Returns 65509.
Proof.
  refine (getK_below_zero
            (Tracker (CalPoint 273 300) (CalPoint 373 400) [0; 0; 0; 0; 0] 0)
            _ _ _ _ _ _ _).
  - unfold wf_point, uint16. simpl. lia.
  - unfold wf_point, uint16. simpl. lia.
  - change (sensor_range 0). unfold sensor_range. lia.
  - simpl. unfold sensor_range. lia.
  - simpl. unfold sensor_range. lia.
  - simpl. lia.
  - change (-65536 ≤ -27 < 0). lia.
Defined.

(** X18: a constant offset of the sensor is absorbed by the calibration:
    when the hardware readings of both points and the raw average are all
    shifted by the same amount and stay in the sensor's range, [getK]
    returns the same value. *)
Theorem getK_offset_invariant t t' (offset : Z) :
  _tempK (_calPoint1 t') = _tempK (_calPoint1 t) →
  _tempK (_calPoint2 t') = _tempK (_calPoint2 t) →
  _hwReading (_calPoint1 t') = _hwReading (_calPoint1 t) + offset →
  _hwReading (_calPoint2 t') = _hwReading (_calPoint2 t) + offset →
  getRaw t' = getRaw t + offset →
  wf_point (_calPoint1 t) → wf_point (_calPoint2 t) →
  sensor_range (_hwReading (_calPoint1 t)) →
  sensor_range (_hwReading (_calPoint2 t)) →
  sensor_range (getRaw t) →
  sensor_range (_hwReading (_calPoint1 t')) →
  sensor_range (_hwReading (_calPoint2 t')) →
  sensor_range (getRaw t') →
  _hwReading (_calPoint1 t) ≠ _hwReading (_calPoint2 t) →
  getK t' = getK t.
Proof.
  intros T1 T2 H1 H2 R W1 W2 S1 S2 Hraw S1' S2' Hraw' Hne.
  assert (wf_point (_calPoint1 t')) as W1'.
  { destruct W1 as [W1 _]. unfold wf_point, uint16, sensor_range in *.
    rewrite T1. lia. }
  assert (wf_point (_calPoint2 t')) as W2'.
  { destruct W2 as [W2 _]. unfold wf_point, uint16, sensor_range in *.
    rewrite T2. lia. }
  rewrite (getK_sensor_range t), (getK_sensor_range t') by (done || lia).
  do 2 f_equal. unfold interpolation_trunc, getK_quotient.
  rewrite T1, T2, H1, H2, R. do 2 f_equal; lia.
Qed.

Lemma getK_offset_invariant_witness :
  getK (Tracker (CalPoint 273 310) (CalPoint 373 410)
                [360; 360; 360; 360; 360] 5)
  = getK (Tracker (CalPoint 273 300) (CalPoint 373 400)
                  [350; 350; 350; 350; 350] 5).
Proof.
  refine (getK_offset_invariant
            (Tracker (CalPoint 273 300) (CalPoint 373 400)
                     [350; 350; 350; 350; 350] 5)
            (Tracker (CalPoint 273 310) (CalPoint 373 410)
                     [360; 360; 360; 360; 360] 5)
            10 eq_refl eq_refl eq_refl eq_refl eq_refl _ _ _ _ _ _ _ _ _).
  - unfold wf_point, uint16. simpl. lia.
  - unfold wf_point, uint16. simpl. lia.
  - simpl. unfold sensor_range. lia.
  - simpl. unfold sensor_range. lia.
  - change (sensor_range 350). unfold sensor_range. lia.
  - simpl. unfold sensor_range. lia.
  - simpl. unfold sensor_range. lia.
  - change (sensor_range 360). unfold sensor_range. lia.
  - simpl. lia.
Defined.

End CalibrationOffsets.
